(** * The ICAL demo driver of the ARL foreign-function wrapper

    A shallow embedding of [examples/ffi_demo/src/ical_demo.c]: the
    verification helper [verify_arl_copy] over an explicit memory, and
    the driver [main] as a straight-line program in a small state and
    error monad that records every call it makes to the C library and
    to the imaging library.

    Conventions.
    - A C [int] is a [Z] in [INT_MIN, INT_MAX]; signed overflow is
      undefined behaviour and is modelled as failure.
    - A pointer is a [Z] address, [NULL] is [0].
    - A [double] is a binary64 value of the kernel ([PrimFloat.float]),
      every operation rounded to nearest, no contraction of a*b+c.
    - The headers [arlwrap.h] and [wrap_support.h] are not part of the
      sources; structure fields are modelled as the driver uses them
      ([nvis] and [npol] as [int]).
    - The imaging library is opaque. What it returns, and what it writes
      to storage the driver reads afterwards ([nb], [lowconfig->nrec],
      [adv], the four entries of [shape], [vt->phasecentre]), is given by
      an environment; it is taken not to write to [lowconfig] or to the
      driver's arrays otherwise. *)

From Stdlib Require Import ZArith List Floats Uint63 Lia.
From stdpp Require Import gmap strings list.

Local Open Scope Z_scope.

(* Decimal literals of the source are rounded to the nearest binary64, as
   the C compiler does. *)
#[local] Set Warnings "-inexact-float".

(** ** C integers *)

Module CInt.

Definition INT_MIN : Z := - 2 ^ 31.
Definition INT_MAX : Z := 2 ^ 31 - 1.

Definition in_range (z : Z) : bool := (INT_MIN <=? z) && (z <=? INT_MAX).

(** The result of a signed operation: defined only when representable. *)
Definition checked (z : Z) : option Z := if in_range z then Some z else None.

Definition add (a b : Z) : option Z := checked (a + b).
Definition sub (a b : Z) : option Z := checked (a - b).
Definition mul (a b : Z) : option Z := checked (a * b).

(** Conversion of an out-of-range value to [int] (implementation defined,
    modulo 2^32 on the usual compilers). *)
Definition wrap (z : Z) : Z := (z + 2 ^ 31) mod 2 ^ 32 - 2 ^ 31.

(** [size_t] on an LP64 platform: arithmetic modulo 2^64. *)
Definition to_size_t (z : Z) : Z := z mod 2 ^ 64.
Definition size_mul (a b : Z) : Z := (a * b) mod 2 ^ 64.

Definition sizeof_int : Z := 4.
Definition sizeof_double : Z := 8.
Definition sizeof_long_long : Z := 8.

End CInt.

(** ** Memory seen by the verification helper *)

Definition ptr := Z.
Definition NULL : ptr := 0.

(** [ARLVis], as far as the driver touches it. *)
Record ARLVis := mkARLVis {
  nvis : Z;
  npol : Z;
  data : ptr;
  phasecentre : ptr
}.

(** Visibility handles that point to a live [ARLVis], and the bytes that
    can be read through a [char*]. A load outside either map is undefined
    behaviour. *)
Record memory := mkMemory {
  vis_at : gmap Z ARLVis;
  byte_at : gmap Z Z
}.

(** ** verify_arl_copy *)

(** [ARLVisDataSize = 80 + (32 * vt->npol * vt->nvis)], evaluated left to
    right in [int]. *)
Definition ARLVisDataSize (vt : ARLVis) : option Z :=
  x ← CInt.mul 32 (npol vt);
  y ← CInt.mul x (nvis vt);
  CInt.add 80 y.

(** The loop [for (i=0; i<ARLVisDataSize; i++)], with [n] iterations left
    and the counter at [i]. *)
Fixpoint compare_bytes (m : memory) (p q : ptr) (i : Z) (n : nat) : option Z :=
  match n with
  | O => Some 0
  | S n' =>
      x ← byte_at m !! (p + i);
      y ← byte_at m !! (q + i);
      if negb (x =? y) then Some 4 else compare_bytes m p q (i + 1) n'
  end.

(** The function itself; the message it prints on [stderr] when the two
    handles are equal is output only and is left out. *)
Definition verify_arl_copy (m : memory) (vt vtmp : ptr) : option Z :=
  if vt =? vtmp then Some 1 else
  a ← vis_at m !! vt;
  b ← vis_at m !! vtmp;
  if negb ((nvis a =? nvis b) && (npol a =? npol b)) then Some 2 else
  if data a =? data b then Some 3 else
  size ← ARLVisDataSize a;
  compare_bytes m (data a) (data b) 0 (Z.to_nat size).

(** The documented payload extent, as a number. *)
Definition payload_extent (v : ARLVis) : Z := 80 + 32 * npol v * nvis v.

(** The three [int] results of the size expression are representable. *)
Definition size_representable (v : ARLVis) : bool :=
  CInt.in_range (32 * npol v) && CInt.in_range (32 * npol v * nvis v)
  && CInt.in_range (payload_extent v).

(** The first [n] bytes from [p] can be read. *)
Definition readable (m : memory) (p : ptr) (n : Z) : bool :=
  forallb (fun i => bool_decide (is_Some (byte_at m !! (p + i)))) (seqZ 0 n).

Definition shape_differs (a b : ARLVis) : Prop :=
  nvis a <> nvis b \/ npol a <> npol b.

Definition byte_differs (m : memory) (a b : ARLVis) : Prop :=
  exists i, 0 <= i < payload_extent a /\
            byte_at m !! (data a + i) <> byte_at m !! (data b + i).

(** ** Doubles *)

Module CDouble.

(** [(double)i] for an [int] [i]: exact. *)
Definition of_int (z : Z) : float :=
  if z <? 0 then (- PrimFloat.of_uint63 (Uint63.of_Z (- z)))%float
  else PrimFloat.of_uint63 (Uint63.of_Z z).

(** [M_PI] of [math.h], 3.14159265358979323846, as the nearest binary64. *)
Definition M_PI : float := 0x1.921fb54442d18p+1%float.

End CDouble.

(** ** Storage owned by the driver *)

(** A pointer variable together with the cells it points to. A cell that
    was never written holds [None]. *)
Record block (A : Type) := mkBlock {
  addr : ptr;
  cells : list (option A)
}.
Arguments mkBlock {A} _ _.
Arguments addr {A} _.
Arguments cells {A} _.

(** What an allocator's return value [p] gives access to: nothing for
    [NULL], otherwise [n] cells holding [init]. *)
Definition new_block {A} (p : ptr) (n : Z) (init : option A) : block A :=
  if p =? NULL then mkBlock NULL [] else mkBlock p (replicate (Z.to_nat n) init).

(** [b[i]] and [b[i] = v]; [None] is undefined behaviour (null pointer,
    index outside the allocation, read of an unwritten cell). *)
Definition load {A} (b : block A) (i : Z) : option A :=
  if (addr b =? NULL) || (i <? 0) then None
  else mjoin (cells b !! Z.to_nat i).

Definition store {A} (b : block A) (i : Z) (v : A) : option (block A) :=
  if (addr b =? NULL) || (i <? 0) || (Z.of_nat (length (cells b)) <=? i) then None
  else Some (mkBlock (addr b) (<[Z.to_nat i := Some v]> (cells b))).

(** [ARLConf], as far as the driver touches it. *)
Record ARLConf := mkARLConf {
  polframe : string;
  rmax : float;
  nant : Z;
  nbases : Z;
  pc_ra : float;
  pc_dec : float;
  nfreqs : Z;
  nchanwidth : Z;
  ntimes : Z;
  freqs : block float;
  channel_bandwidth : block float;
  times : block float;
  conf_npol : Z;
  nrec : Z
}.

Definition set_polframe v c := mkARLConf v (rmax c) (nant c) (nbases c) (pc_ra c) (pc_dec c) (nfreqs c) (nchanwidth c) (ntimes c) (freqs c) (channel_bandwidth c) (times c) (conf_npol c) (nrec c).
Definition set_rmax v c := mkARLConf (polframe c) v (nant c) (nbases c) (pc_ra c) (pc_dec c) (nfreqs c) (nchanwidth c) (ntimes c) (freqs c) (channel_bandwidth c) (times c) (conf_npol c) (nrec c).
Definition set_nant v c := mkARLConf (polframe c) (rmax c) v (nbases c) (pc_ra c) (pc_dec c) (nfreqs c) (nchanwidth c) (ntimes c) (freqs c) (channel_bandwidth c) (times c) (conf_npol c) (nrec c).
Definition set_nbases v c := mkARLConf (polframe c) (rmax c) (nant c) v (pc_ra c) (pc_dec c) (nfreqs c) (nchanwidth c) (ntimes c) (freqs c) (channel_bandwidth c) (times c) (conf_npol c) (nrec c).
Definition set_pc_ra v c := mkARLConf (polframe c) (rmax c) (nant c) (nbases c) v (pc_dec c) (nfreqs c) (nchanwidth c) (ntimes c) (freqs c) (channel_bandwidth c) (times c) (conf_npol c) (nrec c).
Definition set_pc_dec v c := mkARLConf (polframe c) (rmax c) (nant c) (nbases c) (pc_ra c) v (nfreqs c) (nchanwidth c) (ntimes c) (freqs c) (channel_bandwidth c) (times c) (conf_npol c) (nrec c).
Definition set_nfreqs v c := mkARLConf (polframe c) (rmax c) (nant c) (nbases c) (pc_ra c) (pc_dec c) v (nchanwidth c) (ntimes c) (freqs c) (channel_bandwidth c) (times c) (conf_npol c) (nrec c).
Definition set_nchanwidth v c := mkARLConf (polframe c) (rmax c) (nant c) (nbases c) (pc_ra c) (pc_dec c) (nfreqs c) v (ntimes c) (freqs c) (channel_bandwidth c) (times c) (conf_npol c) (nrec c).
Definition set_ntimes v c := mkARLConf (polframe c) (rmax c) (nant c) (nbases c) (pc_ra c) (pc_dec c) (nfreqs c) (nchanwidth c) v (freqs c) (channel_bandwidth c) (times c) (conf_npol c) (nrec c).
Definition set_freqs v c := mkARLConf (polframe c) (rmax c) (nant c) (nbases c) (pc_ra c) (pc_dec c) (nfreqs c) (nchanwidth c) (ntimes c) v (channel_bandwidth c) (times c) (conf_npol c) (nrec c).
Definition set_channel_bandwidth v c := mkARLConf (polframe c) (rmax c) (nant c) (nbases c) (pc_ra c) (pc_dec c) (nfreqs c) (nchanwidth c) (ntimes c) (freqs c) v (times c) (conf_npol c) (nrec c).
Definition set_times v c := mkARLConf (polframe c) (rmax c) (nant c) (nbases c) (pc_ra c) (pc_dec c) (nfreqs c) (nchanwidth c) (ntimes c) (freqs c) (channel_bandwidth c) v (conf_npol c) (nrec c).
Definition set_nrec v c := mkARLConf (polframe c) (rmax c) (nant c) (nbases c) (pc_ra c) (pc_dec c) (nfreqs c) (nchanwidth c) (ntimes c) (freqs c) (channel_bandwidth c) (times c) (conf_npol c) v.

(** ** Calls made by the driver *)

(** One constructor per function the driver calls, with the arguments
    passed and, for allocators, the pointer returned. [printf] and the
    single [fprintf] are output only and are left out. *)
Module Ev.
Inductive t :=
| malloc (nbytes : Z) (ret : ptr)
| calloc (nmemb size : Z) (ret : ptr)
| free (p : ptr)
| mkdir (path : string) (mode : Z)
| arl_initialize
| allocate_arlconf_default (name : string) (ret : ptr)
| helper_get_nbases_rmax (name : string) (rmax : float)
| allocate_blockvis_data (nant nfreqs npol ntimes : Z) (ret : ptr)
| allocate_vis_data (npol nvis : Z) (ret : ptr)
| allocate_gt_data (nant nfreqs nrec ntimes : Z) (ret : ptr)
| allocate_image (shape : list (option Z)) (ret : ptr)
| arl_create_blockvisibility (lowconfig vt : ptr)
| arl_advise_wide_field (lowconfig vt : ptr) (guard_band_image delA : float)
    (wprojection_planes : Z)
| helper_get_image_shape_multifreq (lowconfig : ptr) (cellsize : float)
    (npixel : Z) (shape : ptr)
| arl_create_low_test_image_from_gleam (lowconfig : ptr) (cellsize : float)
    (npixel : Z) (phasecentre img : ptr)
| export_image_to_fits_c (img : ptr) (path : string)
| arl_predict_function (lowconfig vt model vtpredicted vt_predictfunction cindex : ptr)
| arl_convert_visibility_to_blockvisibility
    (lowconfig vtpredicted vt_predictfunction cindex vt : ptr)
| arl_create_gaintable_from_blockvisibility (lowconfig vt gt : ptr)
| arl_simulate_gaintable (lowconfig gt : ptr)
| arl_apply_gaintable (lowconfig vt gt vt_gt : ptr)
| arl_create_image_from_blockvisibility (lowconfig vt : ptr) (cellsize : float)
    (npixel : Z) (phasecentre img : ptr)
| arl_invert_function (lowconfig vtpredicted model : ptr) (vis_slices : Z) (dirty : ptr)
| arl_ical (lowconfig vt_gt model : ptr) (vis_slices : Z)
    (deconvolved residual restored : ptr)
| destroy_image (img : ptr)
| destroy_vis (vis : ptr)
| destroy_gt (gt : ptr).
End Ev.

(** ** What the environment answers *)

(** The driver is deterministic given the values the C library and the
    imaging library return or write. One field per call site. *)
Record world := mkWorld {
  w_shape : ptr;                       (* malloc, line 50 *)
  w_shape1 : ptr;                      (* malloc, line 51 *)
  w_lowconfig : ptr;                   (* allocate_arlconf_default *)
  w_defaults : ARLConf;                (* what the new ARLConf holds *)
  w_nant : Z;                          (* nb.nant *)
  w_nbases : Z;                        (* nb.nbases *)
  w_freqs : ptr;                       (* malloc, line 112 *)
  w_channel_bandwidth : ptr;           (* malloc, line 113 *)
  w_times : ptr;                       (* calloc, line 122 *)
  w_vt : ptr;
  w_vt_predictfunction : ptr;
  w_vt_gt : ptr;
  w_vtpredicted : ptr;
  w_cindex_predict : ptr;              (* malloc, line 143 *)
  w_nrec : Z;                          (* lowconfig->nrec after line 151 *)
  w_gt : ptr;
  w_vis_slices : Z;                    (* adv.vis_slices *)
  w_npixel : Z;                        (* adv.npixel *)
  w_cellsize : float;                  (* adv.cellsize *)
  w_image_shape : Z * Z * Z * Z;       (* written to shape[0..3] *)
  w_gleam_model : ptr;
  w_phasecentre_gleam : ptr;           (* vt->phasecentre, line 170 *)
  w_status_mkdir : Z;
  w_status_gleam : Z;
  w_model : ptr;
  w_phasecentre_model : ptr;           (* vt->phasecentre, line 198 *)
  w_dirty : ptr;
  w_status_dirty : Z;
  w_deconvolved : ptr;
  w_residual : ptr;
  w_restored : ptr;
  w_status_deconvolved : Z;
  w_status_residual : Z;
  w_status_restored : Z
}.

(** ** State of the driver and its monad *)

Record state := mkState {
  shape : block Z;
  shape1 : block Z;
  lowconfig : ptr;
  conf : ARLConf;                      (* the object [*lowconfig] *)
  status : option Z;
  trace : list Ev.t                    (* most recent call first *)
}.

Inductive outcome :=
| Exit (code : Z)                      (* [return code;] from [main] *)
| Fault.                               (* undefined behaviour *)

Definition M (A : Type) : Type := state -> state * (A + outcome).

#[global] Instance M_ret : MRet M := fun A a s => (s, inl a).
#[global] Instance M_bind : MBind M := fun A B f c s =>
  match c s with
  | (s', inl a) => f a s'
  | (s', inr o) => (s', inr o)
  end.

Definition exit {A} (code : Z) : M A := fun s => (s, inr (Exit code)).
Definition fault {A} : M A := fun s => (s, inr Fault).
Definition gets {A} (f : state -> A) : M A := fun s => (s, inl (f s)).
Definition modify (f : state -> state) : M unit := fun s => (f s, inl tt).
Definition call (e : Ev.t) : M unit :=
  modify (fun s => mkState (shape s) (shape1 s) (lowconfig s) (conf s) (status s)
                           (e :: trace s)).
Definition defined {A} (o : option A) : M A :=
  match o with Some a => mret a | None => fault end.

Definition set_shape (b : block Z) : M unit :=
  modify (fun s => mkState b (shape1 s) (lowconfig s) (conf s) (status s) (trace s)).
Definition set_shape1 (b : block Z) : M unit :=
  modify (fun s => mkState (shape s) b (lowconfig s) (conf s) (status s) (trace s)).
Definition set_status (v : Z) : M unit :=
  modify (fun s => mkState (shape s) (shape1 s) (lowconfig s) (conf s) (Some v) (trace s)).
Definition set_lowconfig (p : ptr) (c : ARLConf) : M unit :=
  modify (fun s => mkState (shape s) (shape1 s) p c (status s) (trace s)).

(** [lowconfig->field]: a null [lowconfig] cannot be dereferenced. *)
Definition read_conf {A} (f : ARLConf -> A) : M A :=
  p ← gets lowconfig;
  if p =? NULL then fault else gets (fun s => f (conf s)).
Definition write_conf (f : ARLConf -> ARLConf) : M unit :=
  p ← gets lowconfig;
  if p =? NULL then fault else c ← gets conf; set_lowconfig p (f c).

(** [for (i = 0; i < n; i++) body], with [n] iterations left. *)
Fixpoint for_loop (n : nat) (i : Z) (body : Z -> M unit) : M unit :=
  match n with
  | O => mret tt
  | S n' => body i ;; for_loop n' (i + 1) body
  end.

(** Two states that differ at most in the variable [status], and two
    programs that take such states to such states with the same result. *)
Definition agree (s1 s2 : state) : Prop :=
  shape s1 = shape s2 /\ shape1 s1 = shape1 s2 /\ lowconfig s1 = lowconfig s2 /\
  conf s1 = conf s2 /\ trace s1 = trace s2.

Definition sim {A} (c1 c2 : M A) : Prop :=
  forall s1 s2, agree s1 s2 ->
    agree (c1 s1).1 (c2 s2).1 /\ (c1 s1).2 = (c2 s2).2.

(** ** The driver *)

(** The literals of lines 100 to 107, gathered in one record. *)
Record constants := mkConstants {
  k_nfreqs : Z;
  k_fstart : float;
  k_fend : float;
  k_ntimes : Z;
  k_tstart : float;
  k_tend : float
}.

Definition source_constants : constants :=
  mkConstants 5 0.8e8%float 1.2e8%float
              11 (- CDouble.M_PI / 3.0)%float (CDouble.M_PI / 3.0)%float.

Definition config_name : string := "LOWBD2-CORE".
Definition pol_frame : string := "stokesI".

(** [S_IRWXU | S_IRWXG | S_IROTH | S_IXOTH] *)
Definition results_mode : Z := Z.lor (Z.lor (Z.lor 448 56) 4) 1.

(** [vt->field], the field being [v] in the library's object. *)
Definition deref (p : ptr) {A} (v : A) : M A :=
  if p =? NULL then fault else mret v.

Definition main_with (k : constants) (w : world) : M unit :=
  (* 50-51 *)
  call (Ev.malloc (CInt.size_mul 4 CInt.sizeof_int) (w_shape w));;
  set_shape (new_block (w_shape w) 4 None);;
  call (Ev.malloc (CInt.size_mul 4 CInt.sizeof_int) (w_shape1 w));;
  set_shape1 (new_block (w_shape1 w) 4 None);;
  (* 85-87 *)
  call Ev.arl_initialize;;
  call (Ev.allocate_arlconf_default config_name (w_lowconfig w));;
  set_lowconfig (w_lowconfig w) (w_defaults w);;
  (* 90-98 *)
  write_conf (set_polframe pol_frame);;
  write_conf (set_rmax 300.0%float);;
  r ← read_conf rmax;
  call (Ev.helper_get_nbases_rmax config_name r);;
  write_conf (set_nant (w_nant w));;
  write_conf (set_nbases (w_nbases w));;
  write_conf (set_pc_ra 30.0%float);;
  write_conf (set_pc_dec (-60.0)%float);;
  (* 100-104 *)
  write_conf (set_nfreqs (k_nfreqs k));;
  n ← read_conf nfreqs;
  write_conf (set_nchanwidth n);;
  let fstart := k_fstart k in
  let fend := k_fend k in
  n ← read_conf nfreqs;
  d ← defined (CInt.sub n 1);
  let fdelta := ((fend - fstart) / CDouble.of_int d)%float in
  (* 105-108 *)
  write_conf (set_ntimes (k_ntimes k));;
  let tstart := k_tstart k in
  let tend := k_tend k in
  n ← read_conf ntimes;
  d ← defined (CInt.sub n 1);
  let tdelta := ((tend - tstart) / CDouble.of_int d)%float in
  (* 110-113 *)
  b ← read_conf freqs;
  call (Ev.free (addr b));;
  b ← read_conf channel_bandwidth;
  call (Ev.free (addr b));;
  n ← read_conf nfreqs;
  let nbytes := CInt.size_mul (CInt.to_size_t n) CInt.sizeof_double in
  call (Ev.malloc nbytes (w_freqs w));;
  write_conf (set_freqs (new_block (w_freqs w) (nbytes / CInt.sizeof_double) None));;
  n ← read_conf nfreqs;
  let nbytes := CInt.size_mul (CInt.to_size_t n) CInt.sizeof_double in
  call (Ev.malloc nbytes (w_channel_bandwidth w));;
  write_conf (set_channel_bandwidth
                (new_block (w_channel_bandwidth w) (nbytes / CInt.sizeof_double) None));;
  (* 115-119 *)
  n ← read_conf nfreqs;
  for_loop (Z.to_nat n) 0 (fun i =>
    b ← read_conf freqs;
    b' ← defined (store b i (fstart + CDouble.of_int i * fdelta)%float);
    write_conf (set_freqs b');;
    b ← read_conf channel_bandwidth;
    b' ← defined (store b i fdelta);
    write_conf (set_channel_bandwidth b'));;
  (* 121-127 *)
  b ← read_conf times;
  call (Ev.free (addr b));;
  n ← read_conf ntimes;
  call (Ev.calloc (CInt.to_size_t n) CInt.sizeof_double (w_times w));;
  write_conf (set_times (new_block (w_times w) (CInt.to_size_t n) (Some 0%float)));;
  n ← read_conf ntimes;
  for_loop (Z.to_nat n) 0 (fun i =>
    b ← read_conf times;
    b' ← defined (store b i (tstart + CDouble.of_int i * tdelta)%float);
    write_conf (set_times b'));;
  (* 130 *)
  c ← read_conf (fun c => c);
  x ← defined (CInt.mul (nbases c) (nfreqs c));
  nvis ← defined (CInt.mul x (ntimes c));
  (* 135-138 *)
  let vt := w_vt w in
  let vt_predictfunction := w_vt_predictfunction w in
  let vt_gt := w_vt_gt w in
  let vtpredicted := w_vtpredicted w in
  call (Ev.allocate_blockvis_data (nant c) (nfreqs c) (conf_npol c) (ntimes c) vt);;
  call (Ev.allocate_blockvis_data (nant c) (nfreqs c) (conf_npol c) (ntimes c)
          vt_predictfunction);;
  call (Ev.allocate_blockvis_data (nant c) (nfreqs c) (conf_npol c) (ntimes c) vt_gt);;
  call (Ev.allocate_vis_data (conf_npol c) nvis vtpredicted);;
  (* 141-146 *)
  x ← defined (CInt.mul (ntimes c) (nant c));
  x ← defined (CInt.mul x (nant c));
  x ← defined (CInt.mul x (nfreqs c));
  let cindex_nbytes := CInt.wrap (CInt.size_mul (CInt.to_size_t x) CInt.sizeof_long_long) in
  let cindex_predict := w_cindex_predict w in
  call (Ev.malloc (CInt.to_size_t cindex_nbytes) cindex_predict);;
  (if cindex_predict =? NULL
   then call (Ev.free cindex_predict);; exit 1
   else mret tt);;
  (* 151-154 *)
  lp ← gets lowconfig;
  call (Ev.arl_create_blockvisibility lp vt);;
  write_conf (set_nrec (w_nrec w));;
  c ← read_conf (fun c => c);
  let gt := w_gt w in
  call (Ev.allocate_gt_data (nant c) (nfreqs c) (nrec c) (ntimes c) gt);;
  (* 157-164 *)
  call (Ev.arl_advise_wide_field lp vt 4.0%float 0.02%float 1);;
  let adv_vis_slices := w_vis_slices w in
  let adv_npixel := w_npixel w in
  let adv_cellsize := w_cellsize w in
  (* 167-170 *)
  sh ← gets shape;
  call (Ev.helper_get_image_shape_multifreq lp adv_cellsize adv_npixel (addr sh));;
  b ← defined (store sh 0 (w_image_shape w).1.1.1);
  b ← defined (store b 1 (w_image_shape w).1.1.2);
  b ← defined (store b 2 (w_image_shape w).1.2);
  b ← defined (store b 3 (w_image_shape w).2);
  set_shape b;;
  sh ← gets shape;
  let gleam_model := w_gleam_model w in
  call (Ev.allocate_image (cells sh) gleam_model);;
  pc ← deref vt (w_phasecentre_gleam w);
  call (Ev.arl_create_low_test_image_from_gleam lp adv_cellsize adv_npixel pc gleam_model);;
  (* 173-174 *)
  call (Ev.mkdir "results" results_mode);;
  set_status (w_status_mkdir w);;
  call (Ev.export_image_to_fits_c gleam_model "!results/gleam_model.fits");;
  set_status (w_status_gleam w);;
  (* 177-189 *)
  call (Ev.arl_predict_function lp vt gleam_model vtpredicted vt_predictfunction
          cindex_predict);;
  call (Ev.arl_convert_visibility_to_blockvisibility lp vtpredicted vt_predictfunction
          cindex_predict vt);;
  call (Ev.arl_create_gaintable_from_blockvisibility lp vt gt);;
  call (Ev.arl_simulate_gaintable lp gt);;
  call (Ev.arl_apply_gaintable lp vt gt vt_gt);;
  (* 193-198 *)
  for_loop 4 0 (fun i =>
    sh ← gets shape;
    v ← defined (load sh i);
    sh1 ← gets shape1;
    b ← defined (store sh1 i v);
    set_shape1 b);;
  sh1 ← gets shape1;
  b ← defined (store sh1 0 1);
  set_shape1 b;;
  sh1 ← gets shape1;
  let model := w_model w in
  call (Ev.allocate_image (cells sh1) model);;
  pc ← deref vt (w_phasecentre_model w);
  call (Ev.arl_create_image_from_blockvisibility lp vt adv_cellsize adv_npixel pc model);;
  (* 201-205 *)
  let dirty := w_dirty w in
  sh1 ← gets shape1;
  call (Ev.allocate_image (cells sh1) dirty);;
  call (Ev.arl_invert_function lp vtpredicted model adv_vis_slices dirty);;
  call (Ev.export_image_to_fits_c dirty "!results/dirty.fits");;
  set_status (w_status_dirty w);;
  (* 208-217 *)
  let deconvolved := w_deconvolved w in
  let residual := w_residual w in
  let restored := w_restored w in
  sh1 ← gets shape1;
  call (Ev.allocate_image (cells sh1) deconvolved);;
  sh1 ← gets shape1;
  call (Ev.allocate_image (cells sh1) residual);;
  sh1 ← gets shape1;
  call (Ev.allocate_image (cells sh1) restored);;
  call (Ev.arl_ical lp vt_gt model adv_vis_slices deconvolved residual restored);;
  call (Ev.export_image_to_fits_c deconvolved "!results/deconvolved.fits");;
  set_status (w_status_deconvolved w);;
  call (Ev.export_image_to_fits_c residual "!results/residual.fits");;
  set_status (w_status_residual w);;
  call (Ev.export_image_to_fits_c restored "!results/restored.fits");;
  set_status (w_status_restored w);;
  (* 221-234 *)
  call (Ev.destroy_image gleam_model);;
  call (Ev.destroy_image model);;
  call (Ev.destroy_image dirty);;
  call (Ev.destroy_image deconvolved);;
  call (Ev.destroy_image residual);;
  call (Ev.destroy_image restored);;
  call (Ev.destroy_vis vt);;
  call (Ev.destroy_vis vtpredicted);;
  call (Ev.destroy_vis vt_predictfunction);;
  call (Ev.destroy_vis vt_gt);;
  call (Ev.destroy_gt gt);;
  call (Ev.free cindex_predict);;
  sh ← gets shape;
  call (Ev.free (addr sh));;
  set_shape (mkBlock (addr sh) []);;
  sh1 ← gets shape1;
  call (Ev.free (addr sh1));;
  set_shape1 (mkBlock (addr sh1) []);;
  (* 237 *)
  exit 0.

Definition main : world -> M unit := main_with source_constants.

(** Before [main] starts nothing is allocated and nothing was called. *)
Definition null_conf : ARLConf :=
  mkARLConf "" 0%float 0 0 0%float 0%float 0 0 0
            (mkBlock NULL []) (mkBlock NULL []) (mkBlock NULL []) 0 0.

Definition initial_state : state :=
  mkState (mkBlock NULL []) (mkBlock NULL []) NULL null_conf None [].

(** A run: the final state and how [main] ended. A program that falls off
    the end without [return] cannot be written in [M unit] above, since
    [main_with] ends in [exit]. *)
Definition run (p : M unit) : state * outcome :=
  match p initial_state with
  | (s, inr o) => (s, o)
  | (s, inl _) => (s, Fault)
  end.

(** The calls of a run, in program order. *)
Definition calls (r : state * outcome) : list Ev.t := rev (trace r.1).

(** ** A concrete environment *)

Definition demo_defaults : ARLConf :=
  mkARLConf "linear" 0%float 166 13695 15.0%float (-35.0)%float 1 1 1
            (mkBlock 7000 [Some 1e8%float]) (mkBlock 7100 [Some 1e7%float])
            (mkBlock 7200 [Some 0%float]) 1 0.

Definition demo_world : world :=
  {| w_shape := 1000; w_shape1 := 1100; w_lowconfig := 2000;
     w_defaults := demo_defaults; w_nant := 94; w_nbases := 4371;
     w_freqs := 3000; w_channel_bandwidth := 3100; w_times := 3200;
     w_vt := 4000; w_vt_predictfunction := 4100; w_vt_gt := 4200;
     w_vtpredicted := 4300; w_cindex_predict := 5000; w_nrec := 1;
     w_gt := 6000; w_vis_slices := 1; w_npixel := 512;
     w_cellsize := 0.0005%float; w_image_shape := (5, 1, 512, 512);
     w_gleam_model := 8000; w_phasecentre_gleam := 4050;
     w_status_mkdir := 0; w_status_gleam := 0;
     w_model := 8100; w_phasecentre_model := 4050;
     w_dirty := 8200; w_status_dirty := 0;
     w_deconvolved := 8300; w_residual := 8400; w_restored := 8500;
     w_status_deconvolved := 0; w_status_residual := 0;
     w_status_restored := 0 |}.

(** ** Runs in which nothing goes wrong *)

(** Every allocation whose result the driver dereferences gave storage. *)
Definition allocations_succeed (w : world) : bool :=
  negb (w_shape w =? NULL) && negb (w_shape1 w =? NULL)
  && negb (w_lowconfig w =? NULL)
  && negb (w_freqs w =? NULL) && negb (w_channel_bandwidth w =? NULL)
  && negb (w_times w =? NULL)
  && negb (w_vt w =? NULL)
  && negb (w_cindex_predict w =? NULL).

(** The [int] products of lines 130 and 141 do not overflow. *)
Definition sizes_representable (k : constants) (w : world) : bool :=
  CInt.in_range (w_nbases w * k_nfreqs k)
  && CInt.in_range (w_nbases w * k_nfreqs k * k_ntimes k)
  && CInt.in_range (k_ntimes k * w_nant w)
  && CInt.in_range (k_ntimes k * w_nant w * w_nant w)
  && CInt.in_range (k_ntimes k * w_nant w * w_nant w * k_nfreqs k).

Definition normal (k : constants) (w : world) : bool :=
  allocations_succeed w && sizes_representable k w.

(** ** Reading a run *)

(** The states of the pipeline, as section 4.3 of the specification
    names them, and the library call that enters each. *)
Inductive stage :=
| VisibilityCreated | Advised | SkyModelBuilt | Predicted | Converted
| GainCreated | GainSimulated | GainApplied | ModelImageBuilt | Inverted
| Calibrated | Exported | Released.

Definition stage_of (e : Ev.t) : option stage :=
  match e with
  | Ev.arl_create_blockvisibility _ _ => Some VisibilityCreated
  | Ev.arl_advise_wide_field _ _ _ _ _ => Some Advised
  | Ev.arl_create_low_test_image_from_gleam _ _ _ _ _ => Some SkyModelBuilt
  | Ev.arl_predict_function _ _ _ _ _ _ => Some Predicted
  | Ev.arl_convert_visibility_to_blockvisibility _ _ _ _ _ => Some Converted
  | Ev.arl_create_gaintable_from_blockvisibility _ _ _ => Some GainCreated
  | Ev.arl_simulate_gaintable _ _ => Some GainSimulated
  | Ev.arl_apply_gaintable _ _ _ _ => Some GainApplied
  | Ev.arl_create_image_from_blockvisibility _ _ _ _ _ _ => Some ModelImageBuilt
  | Ev.arl_invert_function _ _ _ _ _ => Some Inverted
  | Ev.arl_ical _ _ _ _ _ _ _ => Some Calibrated
  | Ev.export_image_to_fits_c _ _ => Some Exported
  | Ev.destroy_image _ | Ev.destroy_vis _ | Ev.destroy_gt _ => Some Released
  | _ => None
  end.

Definition stage_eqb (a b : stage) : bool :=
  match a, b with
  | VisibilityCreated, VisibilityCreated | Advised, Advised
  | SkyModelBuilt, SkyModelBuilt | Predicted, Predicted | Converted, Converted
  | GainCreated, GainCreated | GainSimulated, GainSimulated
  | GainApplied, GainApplied | ModelImageBuilt, ModelImageBuilt
  | Inverted, Inverted | Calibrated, Calibrated | Exported, Exported
  | Released, Released => true
  | _, _ => false
  end.

(** The stage entered by each call, in program order. *)
Definition stages (cs : list Ev.t) : list stage := omap stage_of cs.

(** A run of equal neighbours counts once. *)
Fixpoint squeeze {A} (eqb : A -> A -> bool) (l : list A) : list A :=
  match l with
  | [] => []
  | a :: l' =>
      match l' with
      | b :: _ => if eqb a b then squeeze eqb l' else a :: squeeze eqb l'
      | [] => [a]
      end
  end.

Definition transitions (cs : list Ev.t) : list stage := squeeze stage_eqb (stages cs).

Definition times_entered (st : stage) (cs : list Ev.t) : nat :=
  length (filter (fun x => stage_eqb st x = true) (stages cs)).

(** Calls into the imaging library and its wrapper, as opposed to the C
    library. *)
Definition is_library_call (e : Ev.t) : bool :=
  match e with
  | Ev.malloc _ _ | Ev.calloc _ _ _ | Ev.free _ | Ev.mkdir _ _ => false
  | _ => true
  end.

Definition library_calls (cs : list Ev.t) : list Ev.t :=
  filter (fun e => is_library_call e = true) cs.

(** Kinds of buffer, the buffers a call hands out and the buffers a call
    gives back. *)
Inductive kind := Image | Visibility | GainTable | Scratch | Config.

Definition allocated_by (e : Ev.t) : option (kind * ptr) :=
  match e with
  | Ev.malloc _ p | Ev.calloc _ _ p => Some (Scratch, p)
  | Ev.allocate_arlconf_default _ p => Some (Config, p)
  | Ev.allocate_blockvis_data _ _ _ _ p | Ev.allocate_vis_data _ _ p =>
      Some (Visibility, p)
  | Ev.allocate_gt_data _ _ _ _ p => Some (GainTable, p)
  | Ev.allocate_image _ p => Some (Image, p)
  | _ => None
  end.

Definition released_by (e : Ev.t) : option (kind * ptr) :=
  match e with
  | Ev.free p => Some (Scratch, p)
  | Ev.destroy_image p => Some (Image, p)
  | Ev.destroy_vis p => Some (Visibility, p)
  | Ev.destroy_gt p => Some (GainTable, p)
  | _ => None
  end.

Definition allocations (cs : list Ev.t) : list (kind * ptr) := omap allocated_by cs.
Definition releases (cs : list Ev.t) : list (kind * ptr) := omap released_by cs.

Definition times_released (p : ptr) (cs : list Ev.t) : nat :=
  length (filter (fun x => (x.2 =? p) = true) (releases cs)).

Definition image_allocations (cs : list Ev.t) : list (list (option Z) * ptr) :=
  omap (fun e => match e with Ev.allocate_image sh p => Some (sh, p) | _ => None end) cs.

(** ** The run in which nothing goes wrong, written out *)

(** The lists the configuration code of lines 100 to 127 leaves in
    [lowconfig], for the literals of the source. *)
Definition source_fdelta : float := ((1.2e8 - 0.8e8) / CDouble.of_int (5 - 1))%float.
Definition source_tdelta : float :=
  ((CDouble.M_PI / 3.0 - - CDouble.M_PI / 3.0) / CDouble.of_int (11 - 1))%float.

Definition source_freqs : list (option float) :=
  (fun i => Some (0.8e8 + CDouble.of_int i * source_fdelta)%float) <$> seqZ 0 5.
Definition source_channel_bandwidth : list (option float) :=
  (fun _ => Some source_fdelta) <$> seqZ 0 5.
Definition source_times : list (option float) :=
  (fun i => Some (- CDouble.M_PI / 3.0 + CDouble.of_int i * source_tdelta)%float)
    <$> seqZ 0 11.

Definition normal_conf (w : world) : ARLConf :=
  mkARLConf pol_frame 300.0%float (w_nant w) (w_nbases w) 30.0%float (-60.0)%float
            5 5 11
            (mkBlock (w_freqs w) source_freqs)
            (mkBlock (w_channel_bandwidth w) source_channel_bandwidth)
            (mkBlock (w_times w) source_times)
            (conf_npol (w_defaults w)) (w_nrec w).

Definition sky_shape (w : world) : list (option Z) :=
  [Some (w_image_shape w).1.1.1; Some (w_image_shape w).1.1.2;
   Some (w_image_shape w).1.2; Some (w_image_shape w).2].

Definition single_channel_shape (w : world) : list (option Z) :=
  [Some 1; Some (w_image_shape w).1.1.2; Some (w_image_shape w).1.2;
   Some (w_image_shape w).2].

Definition cindex_nbytes (w : world) : Z :=
  CInt.wrap (CInt.size_mul (CInt.to_size_t (11 * w_nant w * w_nant w * 5))
                           CInt.sizeof_long_long).

(** Lines 50 to 146. *)
Definition setup_calls (w : world) : list Ev.t :=
  let npol := conf_npol (w_defaults w) in
  [ Ev.malloc 16 (w_shape w);
    Ev.malloc 16 (w_shape1 w);
    Ev.arl_initialize;
    Ev.allocate_arlconf_default config_name (w_lowconfig w);
    Ev.helper_get_nbases_rmax config_name 300.0%float;
    Ev.free (addr (freqs (w_defaults w)));
    Ev.free (addr (channel_bandwidth (w_defaults w)));
    Ev.malloc 40 (w_freqs w);
    Ev.malloc 40 (w_channel_bandwidth w);
    Ev.free (addr (times (w_defaults w)));
    Ev.calloc 11 8 (w_times w);
    Ev.allocate_blockvis_data (w_nant w) 5 npol 11 (w_vt w);
    Ev.allocate_blockvis_data (w_nant w) 5 npol 11 (w_vt_predictfunction w);
    Ev.allocate_blockvis_data (w_nant w) 5 npol 11 (w_vt_gt w);
    Ev.allocate_vis_data npol (w_nbases w * 5 * 11) (w_vtpredicted w);
    Ev.malloc (CInt.to_size_t (cindex_nbytes w)) (w_cindex_predict w) ].

(** Lines 151 to 217. *)
Definition pipeline_calls (w : world) : list Ev.t :=
  let lp := w_lowconfig w in
  [ Ev.arl_create_blockvisibility lp (w_vt w);
    Ev.allocate_gt_data (w_nant w) 5 (w_nrec w) 11 (w_gt w);
    Ev.arl_advise_wide_field lp (w_vt w) 4.0%float 0.02%float 1;
    Ev.helper_get_image_shape_multifreq lp (w_cellsize w) (w_npixel w) (w_shape w);
    Ev.allocate_image (sky_shape w) (w_gleam_model w);
    Ev.arl_create_low_test_image_from_gleam lp (w_cellsize w) (w_npixel w)
      (w_phasecentre_gleam w) (w_gleam_model w);
    Ev.mkdir "results" results_mode;
    Ev.export_image_to_fits_c (w_gleam_model w) "!results/gleam_model.fits";
    Ev.arl_predict_function lp (w_vt w) (w_gleam_model w) (w_vtpredicted w)
      (w_vt_predictfunction w) (w_cindex_predict w);
    Ev.arl_convert_visibility_to_blockvisibility lp (w_vtpredicted w)
      (w_vt_predictfunction w) (w_cindex_predict w) (w_vt w);
    Ev.arl_create_gaintable_from_blockvisibility lp (w_vt w) (w_gt w);
    Ev.arl_simulate_gaintable lp (w_gt w);
    Ev.arl_apply_gaintable lp (w_vt w) (w_gt w) (w_vt_gt w);
    Ev.allocate_image (single_channel_shape w) (w_model w);
    Ev.arl_create_image_from_blockvisibility lp (w_vt w) (w_cellsize w) (w_npixel w)
      (w_phasecentre_model w) (w_model w);
    Ev.allocate_image (single_channel_shape w) (w_dirty w);
    Ev.arl_invert_function lp (w_vtpredicted w) (w_model w) (w_vis_slices w) (w_dirty w);
    Ev.export_image_to_fits_c (w_dirty w) "!results/dirty.fits";
    Ev.allocate_image (single_channel_shape w) (w_deconvolved w);
    Ev.allocate_image (single_channel_shape w) (w_residual w);
    Ev.allocate_image (single_channel_shape w) (w_restored w);
    Ev.arl_ical lp (w_vt_gt w) (w_model w) (w_vis_slices w)
      (w_deconvolved w) (w_residual w) (w_restored w);
    Ev.export_image_to_fits_c (w_deconvolved w) "!results/deconvolved.fits";
    Ev.export_image_to_fits_c (w_residual w) "!results/residual.fits";
    Ev.export_image_to_fits_c (w_restored w) "!results/restored.fits" ].

(** Lines 221 to 234. *)
Definition cleanup_calls (w : world) : list Ev.t :=
  [ Ev.destroy_image (w_gleam_model w);
    Ev.destroy_image (w_model w);
    Ev.destroy_image (w_dirty w);
    Ev.destroy_image (w_deconvolved w);
    Ev.destroy_image (w_residual w);
    Ev.destroy_image (w_restored w);
    Ev.destroy_vis (w_vt w);
    Ev.destroy_vis (w_vtpredicted w);
    Ev.destroy_vis (w_vt_predictfunction w);
    Ev.destroy_vis (w_vt_gt w);
    Ev.destroy_gt (w_gt w);
    Ev.free (w_cindex_predict w);
    Ev.free (w_shape w);
    Ev.free (w_shape1 w) ].

(** The buffers the cleanup gives back, in the order it does. *)
Definition cleanup_releases (w : world) : list (kind * ptr) :=
  [ (Image, w_gleam_model w); (Image, w_model w); (Image, w_dirty w);
    (Image, w_deconvolved w); (Image, w_residual w); (Image, w_restored w);
    (Visibility, w_vt w); (Visibility, w_vtpredicted w);
    (Visibility, w_vt_predictfunction w); (Visibility, w_vt_gt w);
    (GainTable, w_gt w);
    (Scratch, w_cindex_predict w); (Scratch, w_shape w); (Scratch, w_shape1 w) ].

(** The default arrays the configuration code frees at lines 110 to 121. *)
Definition default_releases (w : world) : list (kind * ptr) :=
  [ (Scratch, addr (freqs (w_defaults w)));
    (Scratch, addr (channel_bandwidth (w_defaults w)));
    (Scratch, addr (times (w_defaults w))) ].

Definition normal_calls (w : world) : list Ev.t :=
  setup_calls w ++ pipeline_calls w ++ cleanup_calls w.

Definition normal_state (w : world) : state :=
  mkState (mkBlock (w_shape w) []) (mkBlock (w_shape1 w) [])
          (w_lowconfig w) (normal_conf w) (Some (w_status_restored w))
          (rev (normal_calls w)).

(** ** Other environments *)

(** The same environment, [mkdir] and the five exports returning other statuses. *)
Definition with_statuses (m g d dc rs rt : Z) (w : world) : world :=
  mkWorld (w_shape w) (w_shape1 w) (w_lowconfig w) (w_defaults w) (w_nant w)
    (w_nbases w) (w_freqs w) (w_channel_bandwidth w) (w_times w) (w_vt w)
    (w_vt_predictfunction w) (w_vt_gt w) (w_vtpredicted w)
    (w_cindex_predict w) (w_nrec w) (w_gt w) (w_vis_slices w) (w_npixel w)
    (w_cellsize w) (w_image_shape w) (w_gleam_model w) (w_phasecentre_gleam w)
    m g (w_model w) (w_phasecentre_model w) (w_dirty w) d (w_deconvolved w)
    (w_residual w) (w_restored w) dc rs rt.

(** The same environment, the [malloc] of line 51 returning [p]. *)
Definition with_shape1 (p : ptr) (w : world) : world :=
  mkWorld (w_shape w) p (w_lowconfig w) (w_defaults w) (w_nant w) (w_nbases w)
    (w_freqs w) (w_channel_bandwidth w) (w_times w) (w_vt w)
    (w_vt_predictfunction w) (w_vt_gt w) (w_vtpredicted w)
    (w_cindex_predict w) (w_nrec w) (w_gt w) (w_vis_slices w) (w_npixel w)
    (w_cellsize w) (w_image_shape w) (w_gleam_model w) (w_phasecentre_gleam w)
    (w_status_mkdir w) (w_status_gleam w) (w_model w) (w_phasecentre_model w)
    (w_dirty w) (w_status_dirty w) (w_deconvolved w) (w_residual w)
    (w_restored w) (w_status_deconvolved w) (w_status_residual w)
    (w_status_restored w).

(** The same environment, the [malloc] of line 143 returning [p]. *)
Definition with_cindex_predict (p : ptr) (w : world) : world :=
  mkWorld (w_shape w) (w_shape1 w) (w_lowconfig w) (w_defaults w) (w_nant w)
    (w_nbases w) (w_freqs w) (w_channel_bandwidth w) (w_times w) (w_vt w)
    (w_vt_predictfunction w) (w_vt_gt w) (w_vtpredicted w) p (w_nrec w)
    (w_gt w) (w_vis_slices w) (w_npixel w) (w_cellsize w) (w_image_shape w)
    (w_gleam_model w) (w_phasecentre_gleam w) (w_status_mkdir w)
    (w_status_gleam w) (w_model w) (w_phasecentre_model w) (w_dirty w)
    (w_status_dirty w) (w_deconvolved w) (w_residual w) (w_restored w)
    (w_status_deconvolved w) (w_status_residual w) (w_status_restored w).

(** The same environment, [helper_get_nbases_rmax] reporting [n] antennas. *)
Definition with_nant (n : Z) (w : world) : world :=
  mkWorld (w_shape w) (w_shape1 w) (w_lowconfig w) (w_defaults w) n
    (w_nbases w) (w_freqs w) (w_channel_bandwidth w) (w_times w) (w_vt w)
    (w_vt_predictfunction w) (w_vt_gt w) (w_vtpredicted w)
    (w_cindex_predict w) (w_nrec w) (w_gt w) (w_vis_slices w) (w_npixel w)
    (w_cellsize w) (w_image_shape w) (w_gleam_model w) (w_phasecentre_gleam w)
    (w_status_mkdir w) (w_status_gleam w) (w_model w) (w_phasecentre_model w)
    (w_dirty w) (w_status_dirty w) (w_deconvolved w) (w_residual w)
    (w_restored w) (w_status_deconvolved w) (w_status_residual w)
    (w_status_restored w).

(** What the run needs to get as far as the [malloc] of line 143. *)
Definition reaches_cindex (k : constants) (w : world) : bool :=
  negb (w_lowconfig w =? NULL)
  && negb (w_freqs w =? NULL) && negb (w_channel_bandwidth w =? NULL)
  && negb (w_times w =? NULL)
  && sizes_representable k w.

(** ** Orders and spacings *)

(** The order of stages with a single export phase after ICAL. *)
Definition single_export_order : list stage :=
  [VisibilityCreated; Advised; SkyModelBuilt; Predicted; Converted; GainCreated;
   GainSimulated; GainApplied; ModelImageBuilt; Inverted; Calibrated; Exported;
   Released].

(** The order of the source: the sky model and the dirty image are
    exported as soon as they exist. *)
Definition source_order : list stage :=
  [VisibilityCreated; Advised; SkyModelBuilt; Exported; Predicted; Converted;
   GainCreated; GainSimulated; GainApplied; ModelImageBuilt; Inverted; Exported;
   Calibrated; Exported; Released].

Definition is_initialize (e : Ev.t) : bool :=
  match e with Ev.arl_initialize => true | _ => false end.

Definition kind_eqb (a b : kind) : bool :=
  match a, b with
  | Image, Image | Visibility, Visibility | GainTable, GainTable
  | Scratch, Scratch | Config, Config => true
  | _, _ => false
  end.

(** The kinds of a list of buffers, a run of equal neighbours counted once. *)
Definition kind_order (l : list (kind * ptr)) : list kind := squeeze kind_eqb (l.*1).

(** The written cells of a block of doubles. *)
Definition doubles (b : block float) : list float := omap id (cells b).

(** [l[i+1] - l[i]] for consecutive entries, in binary64. *)
Fixpoint differences (l : list float) : list float :=
  match l with
  | a :: (b :: _) as l' => (b - a)%float :: differences l'
  | _ => []
  end.

(** [|x - y| <= eps] in binary64. *)
Definition within (eps x y : float) : bool :=
  PrimFloat.leb (PrimFloat.abs (x - y)) eps.

(** The calls that follow the first call satisfying [p]. *)
Fixpoint after (p : Ev.t -> bool) (cs : list Ev.t) : list Ev.t :=
  match cs with
  | [] => []
  | e :: cs' => if p e then cs' else after p cs'
  end.

Definition is_mkdir (e : Ev.t) : bool :=
  match e with Ev.mkdir _ _ => true | _ => false end.

(** The call [e] enters stage [st]. *)
Definition enters (st : stage) (e : Ev.t) : bool :=
  match stage_of e with Some x => stage_eqb st x | None => false end.

(** The calls that precede the first call satisfying [p]. *)
Fixpoint before (p : Ev.t -> bool) (cs : list Ev.t) : list Ev.t :=
  match cs with
  | [] => []
  | e :: cs' => if p e then [] else e :: before p cs'
  end.

(** ** Concrete memories for the verification helper *)

Definition fill_bytes (base n : Z) (f : Z -> Z) : list (Z * Z) :=
  (fun i => (base + i, f i)) <$> seqZ 0 n.

(** Two distinct buffers of one visibility and one polarisation, 112
    bytes each, that differ in their last byte. *)
Definition demo_vt : ARLVis := mkARLVis 1 1 1000 0.
Definition demo_vtmp : ARLVis := mkARLVis 1 1 2000 0.

Definition demo_memory : memory :=
  {| vis_at := <[100 := demo_vt]> (<[200 := demo_vtmp]> ∅);
     byte_at := list_to_map
       (fill_bytes 1000 112 (fun _ => 0) ++
        fill_bytes 2000 112 (fun i => if i =? 111 then 1 else 0)) |}.

(** Two distinct handles on the same storage with different
    polarisation counts. *)
Definition alias_vt : ARLVis := mkARLVis 1 1 1000 0.
Definition alias_vtmp : ARLVis := mkARLVis 1 4 1000 0.

Definition alias_memory : memory :=
  {| vis_at := <[100 := alias_vt]> (<[200 := alias_vtmp]> ∅);
     byte_at := list_to_map (fill_bytes 1000 112 (fun _ => 0)) |}.

(** A buffer of four polarisations and a shorter one of a single
    polarisation. *)
Definition long_vt : ARLVis := mkARLVis 1 4 1000 0.
Definition uneven_memory : memory :=
  {| vis_at := <[100 := long_vt]> (<[200 := demo_vtmp]> ∅);
     byte_at := list_to_map
       (fill_bytes 1000 208 (fun _ => 0) ++ fill_bytes 2000 112 (fun _ => 0)) |}.

(** Two distinct handles of the same shape on the same storage, of which
    no byte can be read. *)
Definition shared_memory : memory :=
  {| vis_at := <[100 := demo_vt]> (<[200 := demo_vt]> ∅); byte_at := ∅ |}.

(** Two distinct handles on the same storage, of a shape whose size does
    not fit an [int]. *)
Definition huge_vt : ARLVis := mkARLVis 67108864 1 1000 0.
Definition huge_memory : memory :=
  {| vis_at := <[100 := huge_vt]> (<[200 := huge_vt]> ∅); byte_at := ∅ |}.

(** A memory in which no address holds anything. *)
Definition empty_memory : memory := {| vis_at := ∅; byte_at := ∅ |}.

(** Two buffers of which only the first three bytes can be read, and
    whose third bytes differ. *)
Definition short_memory : memory :=
  {| vis_at := <[100 := demo_vt]> (<[200 := demo_vtmp]> ∅);
     byte_at := list_to_map
       (fill_bytes 1000 3 (fun i => if i =? 2 then 7 else 0) ++
        fill_bytes 2000 3 (fun i => if i =? 2 then 9 else 0)) |}.

(** [demo_memory] with one more byte, outside both payloads. *)
Definition wider_memory : memory :=
  {| vis_at := vis_at demo_memory;
     byte_at := <[5000 := 1]> (byte_at demo_memory) |}.

(** Two distinct buffers with the same 112 bytes. *)
Definition alike_memory : memory :=
  {| vis_at := <[100 := demo_vt]> (<[200 := demo_vtmp]> ∅);
     byte_at := list_to_map
       (fill_bytes 1000 112 (fun i => i) ++ fill_bytes 2000 112 (fun i => i)) |}.

(** ** Every run *)

(** The calls every run starts with (lines 50, 51 and 85). *)
Definition first_calls (w : world) : list Ev.t :=
  [Ev.malloc 16 (w_shape w); Ev.malloc 16 (w_shape1 w); Ev.arl_initialize].

(** The stages in the order of the source, lines 151 to 234. *)
Definition source_stages : list stage :=
  [VisibilityCreated; Advised; SkyModelBuilt; Exported; Predicted; Converted;
   GainCreated; GainSimulated; GainApplied; ModelImageBuilt; Inverted; Exported;
   Calibrated; Exported; Exported; Exported] ++ replicate 11 Released.

(** The three ways a run ends. A run that ends in undefined behaviour has
    made an initial segment of the calls of lines 50 to 217, and has
    entered a stage only once the conversion-index array was there. *)
Definition every_run (w : world) (r : state * (unit + outcome)) : Prop :=
  (r.2 = inr (Exit 0) /\ normal source_constants w = true) \/
  (r.2 = inr (Exit 1) /\ reaches_cindex source_constants w = true /\
   w_cindex_predict w = NULL) \/
  (r.2 = inr Fault /\
   (exists rest, rev (trace r.1) = first_calls w ++ rest) /\
   (exists rest, setup_calls w ++ pipeline_calls w = rev (trace r.1) ++ rest) /\
   (stages (rev (trace r.1)) = [] \/
    reaches_cindex source_constants w = true /\ (w_cindex_predict w =? NULL) = false)).

(** ** Buffers and their addresses *)

(** The buffer [x] is handed out by a call of the run, and the calls
    after that one give its address back exactly once. *)
Definition released_once_since_allocated (x : kind * ptr) (cs : list Ev.t) : Prop :=
  exists pre e post,
    cs = pre ++ e :: post /\ allocated_by e = Some x /\
    times_released x.2 post = 1%nat.

(** What an allocator guarantees for buffers that are live at the same
    time. The fourteen buffers of the cleanup are all live when it starts,
    so their addresses are pairwise distinct; the two shape arrays are
    live while the default arrays of the configuration are, so they are
    not at the address of one of those. *)
Definition answers_distinct (w : world) : Prop :=
  NoDup ((cleanup_releases w).*2) /\
  ~ In (w_shape w) ((default_releases w).*2) /\
  ~ In (w_shape1 w) ((default_releases w).*2).

(** The same environment, the first block visibility at another address. *)
Definition with_vt (p : ptr) (w : world) : world :=
  mkWorld (w_shape w) (w_shape1 w) (w_lowconfig w) (w_defaults w) (w_nant w)
    (w_nbases w) (w_freqs w) (w_channel_bandwidth w) (w_times w) p
    (w_vt_predictfunction w) (w_vt_gt w) (w_vtpredicted w)
    (w_cindex_predict w) (w_nrec w) (w_gt w) (w_vis_slices w) (w_npixel w)
    (w_cellsize w) (w_image_shape w) (w_gleam_model w) (w_phasecentre_gleam w)
    (w_status_mkdir w) (w_status_gleam w) (w_model w) (w_phasecentre_model w)
    (w_dirty w) (w_status_dirty w) (w_deconvolved w) (w_residual w)
    (w_restored w) (w_status_deconvolved w) (w_status_residual w)
    (w_status_restored w).

(** [demo_world], the first block visibility being given the address of
    the default frequency array, which was freed at line 110. *)
Definition reused_world : world := with_vt 7000 demo_world.

(** ** Other defaults, other buffers *)

(** The same environment, [allocate_arlconf_default] giving another
    configuration. *)
Definition with_defaults (d : ARLConf) (w : world) : world :=
  mkWorld (w_shape w) (w_shape1 w) (w_lowconfig w) d (w_nant w)
    (w_nbases w) (w_freqs w) (w_channel_bandwidth w) (w_times w) (w_vt w)
    (w_vt_predictfunction w) (w_vt_gt w) (w_vtpredicted w)
    (w_cindex_predict w) (w_nrec w) (w_gt w) (w_vis_slices w) (w_npixel w)
    (w_cellsize w) (w_image_shape w) (w_gleam_model w) (w_phasecentre_gleam w)
    (w_status_mkdir w) (w_status_gleam w) (w_model w) (w_phasecentre_model w)
    (w_dirty w) (w_status_dirty w) (w_deconvolved w) (w_residual w)
    (w_restored w) (w_status_deconvolved w) (w_status_residual w)
    (w_status_restored w).

(** A configuration that shares with [demo_defaults] the polarisation
    count and the addresses of its three arrays, and nothing else. *)
Definition other_defaults : ARLConf :=
  mkARLConf "circular" 1e3%float 512 130816 0%float 0%float 7 3 2
            (mkBlock 7000 []) (mkBlock 7100 [None; None]) (mkBlock 7200 []) 1 4.

(** The allocators of visibility buffers and gain tables. *)
Definition is_buffer_allocation (e : Ev.t) : bool :=
  match e with
  | Ev.allocate_blockvis_data _ _ _ _ _ | Ev.allocate_vis_data _ _ _
  | Ev.allocate_gt_data _ _ _ _ _ => true
  | _ => false
  end.

(** * Properties *)

(** ** C integers *)

Lemma checked_in z : CInt.in_range z = true -> CInt.checked z = Some z.
Proof. unfold CInt.checked. intros ->. reflexivity. Qed.

(** ** The verification helper *)

Section VerifyArlCopy.

Variable m : memory.

Lemma readable_spec p n :
  readable m p n = true ->
  forall i, 0 <= i < n -> is_Some (byte_at m !! (p + i)).
Proof.
  unfold readable. intros H i Hi.
  rewrite forallb_forall in H.
  specialize (H i). rewrite bool_decide_eq_true in H. apply H.
  apply list_elem_of_In, elem_of_seqZ. lia.
Qed.

(** The loop stops with 4 at the first offset where the bytes differ and
    ends with 0 when there is none. *)
Lemma compare_bytes_spec p q n : forall i,
  (forall j, i <= j < i + Z.of_nat n ->
     is_Some (byte_at m !! (p + j)) /\ is_Some (byte_at m !! (q + j))) ->
  (compare_bytes m p q i n = Some 0 /\
   forall j, i <= j < i + Z.of_nat n ->
     byte_at m !! (p + j) = byte_at m !! (q + j))
  \/
  (compare_bytes m p q i n = Some 4 /\
   exists j, i <= j < i + Z.of_nat n /\
     byte_at m !! (p + j) <> byte_at m !! (q + j)).
Proof.
  induction n as [|n IH]; intros i Hrd.
  - left. split; [reflexivity | intros j Hj; lia].
  - destruct (Hrd i ltac:(lia)) as [[x Hx] [y Hy]].
    cbn [compare_bytes]. rewrite Hx, Hy. cbn.
    destruct (Z.eqb_spec x y) as [-> | Hne]; cbn.
    + destruct (IH (i + 1)) as [[E H0] | [E (j & Hj & Hd)]].
      * intros j Hj. apply Hrd. lia.
      * left. split; [exact E |]. intros j Hj.
        destruct (Z.eq_dec j i) as [-> | Hji]; [congruence | apply H0; lia].
      * right. split; [exact E |]. exists j. split; [lia | exact Hd].
    + right. split; [reflexivity |]. exists i. split; [lia | congruence].
Qed.

End VerifyArlCopy.

Lemma ARLVisDataSize_representable v :
  size_representable v = true -> ARLVisDataSize v = Some (payload_extent v).
Proof.
  unfold size_representable, ARLVisDataSize, payload_extent, CInt.mul, CInt.add.
  rewrite !andb_true_iff. intros [[H1 H2] H3].
  rewrite (checked_in _ H1). cbn.
  rewrite (checked_in _ H2). cbn.
  apply checked_in, H3.
Qed.

(** C1. [verify_arl_copy] returns a discriminant [r]: [r = 1] exactly
    when the handles are the same address; else [r = 2] exactly when
    [nvis] or [npol] differ; else [r = 3] exactly when the data pointers
    are equal; else [r = 4] exactly when some byte among the first
    [80 + 32*npol*nvis] bytes differs; and [r = 0] exactly when none of
    these hold. Two distinct handles have to point to live buffers; the
    payload has to be of a representable size and readable only where the
    function gets as far as reading it, that is, for two buffers of the
    same shape with different data pointers. *)
Theorem verify_arl_copy_discriminant (m : memory) (vt vtmp : ptr) (a b : ARLVis) :
  (vt <> vtmp -> vis_at m !! vt = Some a /\ vis_at m !! vtmp = Some b) ->
  (vt <> vtmp -> ~ shape_differs a b -> data a <> data b ->
   size_representable a = true /\
   readable m (data a) (payload_extent a) = true /\
   readable m (data b) (payload_extent a) = true) ->
  exists r, verify_arl_copy m vt vtmp = Some r /\
    (r = 1 <-> vt = vtmp) /\
    (r = 2 <-> vt <> vtmp /\ shape_differs a b) /\
    (r = 3 <-> vt <> vtmp /\ ~ shape_differs a b /\ data a = data b) /\
    (r = 4 <-> vt <> vtmp /\ ~ shape_differs a b /\ data a <> data b /\
               byte_differs m a b) /\
    (r = 0 <-> vt <> vtmp /\ ~ shape_differs a b /\ data a <> data b /\
               ~ byte_differs m a b).
Proof.
  intros Hlive Hpay. unfold verify_arl_copy, shape_differs in *.
  destruct (Z.eqb_spec vt vtmp) as [Heq | Hne].
  { exists 1. repeat split; try tauto; try discriminate; intros; tauto. }
  destruct (Hlive Hne) as [Ha Hb]. rewrite Ha, Hb. cbn.
  destruct (Z.eqb_spec (nvis a) (nvis b)) as [Hv | Hv]; cbn;
    [destruct (Z.eqb_spec (npol a) (npol b)) as [Hp | Hp]; cbn |].
  2,3: exists 2; repeat split; try tauto; try discriminate; intros; tauto.
  destruct (Z.eqb_spec (data a) (data b)) as [Hd | Hd].
  { exists 3. repeat split; try tauto; try discriminate; intros; tauto. }
  destruct (Hpay Hne ltac:(tauto) Hd) as (Hsz & Hra & Hrb).
  rewrite (ARLVisDataSize_representable _ Hsz). cbn.
  destruct (compare_bytes_spec m (data a) (data b)
              (Z.to_nat (payload_extent a)) 0) as [[E H0] | [E (j & Hj & Hdiff)]].
  - intros j Hj. split;
      [apply (readable_spec m _ _ Hra) | apply (readable_spec m _ _ Hrb)]; lia.
  - exists 0. split; [exact E |].
    assert (Hnb : ~ byte_differs m a b).
    { intros (i & Hi & Hx). apply Hx, H0. lia. }
    repeat split; try tauto; try discriminate; intros; tauto.
  - exists 4. split; [exact E |].
    assert (Hbd : byte_differs m a b).
    { exists j. split; [lia | exact Hdiff]. }
    repeat split; try tauto; try discriminate; intros; tauto.
Qed.

Lemma verify_arl_copy_discriminant_witness :
  exists r, verify_arl_copy demo_memory 100 200 = Some r /\
    (r = 1 <-> 100 = 200) /\
    (r = 2 <-> 100 <> 200 /\ shape_differs demo_vt demo_vtmp) /\
    (r = 3 <-> 100 <> 200 /\ ~ shape_differs demo_vt demo_vtmp /\
               data demo_vt = data demo_vtmp) /\
    (r = 4 <-> 100 <> 200 /\ ~ shape_differs demo_vt demo_vtmp /\
               data demo_vt <> data demo_vtmp /\
               byte_differs demo_memory demo_vt demo_vtmp) /\
    (r = 0 <-> 100 <> 200 /\ ~ shape_differs demo_vt demo_vtmp /\
               data demo_vt <> data demo_vtmp /\
               ~ byte_differs demo_memory demo_vt demo_vtmp).
Proof.
  apply (verify_arl_copy_discriminant demo_memory 100 200 demo_vt demo_vtmp).
  - intros _. vm_compute. split; reflexivity.
  - intros _ _ _. vm_compute. repeat split.
Defined.

(** The flipped last byte of [demo_memory] is found. *)
Example verify_demo_memory : verify_arl_copy demo_memory 100 200 = Some 4.
Proof. vm_compute. reflexivity. Qed.

(** C10. The checks are made in the order identity, shape, aliasing,
    content, and the first that fails decides. A handle compared with
    itself gives 1 whatever the memory holds, also when nothing is live at
    that address and a read of any field would be undefined. Two distinct
    live handles whose [nvis] or [npol] differ give 2, whatever their data
    pointers are, equal ones included, and whatever can be read through
    them. With the same shape and equal data pointers the result is 3,
    also when the size does not fit an [int] and no byte can be read.
    Only then are the bytes compared: 4 when some byte of the payload
    differs, 0 when none does. *)
Theorem verify_arl_copy_precedence :
  (forall (m : memory) (p : ptr), verify_arl_copy m p p = Some 1)
  /\
  (forall (m : memory) (vt vtmp : ptr) (a b : ARLVis),
     vt <> vtmp ->
     vis_at m !! vt = Some a ->
     vis_at m !! vtmp = Some b ->
     shape_differs a b ->
     verify_arl_copy m vt vtmp = Some 2)
  /\
  (forall (m : memory) (vt vtmp : ptr) (a b : ARLVis),
     vt <> vtmp ->
     vis_at m !! vt = Some a ->
     vis_at m !! vtmp = Some b ->
     ~ shape_differs a b ->
     data a = data b ->
     verify_arl_copy m vt vtmp = Some 3)
  /\
  (forall (m : memory) (vt vtmp : ptr) (a b : ARLVis),
     vt <> vtmp ->
     vis_at m !! vt = Some a ->
     vis_at m !! vtmp = Some b ->
     ~ shape_differs a b ->
     data a <> data b ->
     size_representable a = true ->
     readable m (data a) (payload_extent a) = true ->
     readable m (data b) (payload_extent a) = true ->
     (byte_differs m a b -> verify_arl_copy m vt vtmp = Some 4) /\
     (~ byte_differs m a b -> verify_arl_copy m vt vtmp = Some 0)).
Proof.
  assert (Hsame : forall a b, ~ shape_differs a b ->
            negb ((nvis a =? nvis b) && (npol a =? npol b)) = false).
  { intros a b Hs. unfold shape_differs in Hs.
    destruct (Z.eqb_spec (nvis a) (nvis b)); [| tauto].
    destruct (Z.eqb_spec (npol a) (npol b)); [reflexivity | tauto]. }
  split; [| split; [| split]].
  - intros m p. unfold verify_arl_copy. rewrite Z.eqb_refl. reflexivity.
  - intros m vt vtmp a b Hne Ha Hb Hs. unfold verify_arl_copy.
    apply Z.eqb_neq in Hne. rewrite Hne, Ha, Hb. cbn.
    destruct Hs as [Hv | Hp].
    + apply Z.eqb_neq in Hv. rewrite Hv. reflexivity.
    + apply Z.eqb_neq in Hp. rewrite Hp, andb_false_r. reflexivity.
  - intros m vt vtmp a b Hne Ha Hb Hs Hd. unfold verify_arl_copy.
    apply Z.eqb_neq in Hne. rewrite Hne, Ha, Hb. cbn.
    rewrite (Hsame _ _ Hs). apply Z.eqb_eq in Hd. rewrite Hd. reflexivity.
  - intros m vt vtmp a b Hne Ha Hb Hs Hd Hsz Hra Hrb. unfold verify_arl_copy.
    apply Z.eqb_neq in Hne. rewrite Hne, Ha, Hb. cbn.
    rewrite (Hsame _ _ Hs). apply Z.eqb_neq in Hd. rewrite Hd.
    rewrite (ARLVisDataSize_representable _ Hsz). cbn.
    destruct (compare_bytes_spec m (data a) (data b)
                (Z.to_nat (payload_extent a)) 0) as [[E H0] | [E (j & Hj & Hdiff)]].
    + intros j Hj. split;
        [apply (readable_spec m _ _ Hra) | apply (readable_spec m _ _ Hrb)]; lia.
    + split; [| intros _; exact E].
      intros (i & Hi & Hx). exfalso. apply Hx, H0. lia.
    + split; [intros _; exact E |].
      intros Hn. exfalso. apply Hn. exists j. split; [lia | exact Hdiff].
Qed.

Lemma verify_arl_copy_precedence_witness :
  verify_arl_copy empty_memory 100 100 = Some 1 /\
  verify_arl_copy alias_memory 100 200 = Some 2 /\
  verify_arl_copy uneven_memory 100 200 = Some 2 /\
  verify_arl_copy shared_memory 100 200 = Some 3 /\
  verify_arl_copy huge_memory 100 200 = Some 3 /\
  verify_arl_copy demo_memory 100 200 = Some 4 /\
  verify_arl_copy alike_memory 100 200 = Some 0.
Proof.
  destruct verify_arl_copy_precedence as (H1 & H2 & H3 & H4).
  split; [apply (H1 empty_memory 100) |].
  split.
  { apply (H2 alias_memory 100 200 alias_vt alias_vtmp);
      [lia | reflexivity | reflexivity |].
    right. vm_compute. discriminate. }
  split.
  { apply (H2 uneven_memory 100 200 long_vt demo_vtmp);
      [lia | reflexivity | reflexivity |].
    right. vm_compute. discriminate. }
  split.
  { apply (H3 shared_memory 100 200 demo_vt demo_vt);
      [lia | reflexivity | reflexivity | | reflexivity].
    intros [H | H]; apply H; reflexivity. }
  split.
  { apply (H3 huge_memory 100 200 huge_vt huge_vt);
      [lia | reflexivity | reflexivity | | reflexivity].
    intros [H | H]; apply H; reflexivity. }
  split.
  { apply (H4 demo_memory 100 200 demo_vt demo_vtmp);
      try (vm_compute; reflexivity); try (vm_compute; discriminate).
    - intros [H | H]; apply H; reflexivity.
    - exists 111. split; [vm_compute; split; [discriminate | reflexivity] |].
      vm_compute. discriminate. }
  { apply (H4 alike_memory 100 200 demo_vt demo_vtmp);
      try (vm_compute; reflexivity); try (vm_compute; discriminate).
    - intros [H | H]; apply H; reflexivity.
    - intros (i & Hi & Hx). apply Hx. clear Hx.
      change (payload_extent demo_vt) with 112 in Hi.
      change (data demo_vt) with 1000. change (data demo_vtmp) with 2000.
      assert (Hall : forallb (fun k => bool_decide
                (byte_at alike_memory !! (1000 + k) = byte_at alike_memory !! (2000 + k)))
                (seqZ 0 112) = true) by (vm_compute; reflexivity).
      rewrite forallb_forall in Hall. specialize (Hall i).
      rewrite bool_decide_eq_true in Hall. apply Hall.
      apply list_elem_of_In, elem_of_seqZ. lia. }
Defined.

(** ** Executing the driver step by step *)

(** Each lemma runs the first statement of a program on an explicit
    state. *)
Section Steps.
Context {B : Type}.
Implicit Types (s : state) (o : state * (B + outcome)).

Lemma call_bind e (k : unit -> M B) s :
  (call e ≫= k) s =
  k tt (mkState (shape s) (shape1 s) (lowconfig s) (conf s) (status s) (e :: trace s)).
Proof. reflexivity. Qed.

Lemma set_shape_bind b (k : unit -> M B) s :
  (set_shape b ≫= k) s =
  k tt (mkState b (shape1 s) (lowconfig s) (conf s) (status s) (trace s)).
Proof. reflexivity. Qed.

Lemma set_shape1_bind b (k : unit -> M B) s :
  (set_shape1 b ≫= k) s =
  k tt (mkState (shape s) b (lowconfig s) (conf s) (status s) (trace s)).
Proof. reflexivity. Qed.

Lemma set_status_bind v (k : unit -> M B) s :
  (set_status v ≫= k) s =
  k tt (mkState (shape s) (shape1 s) (lowconfig s) (conf s) (Some v) (trace s)).
Proof. reflexivity. Qed.

Lemma set_lowconfig_bind p c (k : unit -> M B) s :
  (set_lowconfig p c ≫= k) s =
  k tt (mkState (shape s) (shape1 s) p c (status s) (trace s)).
Proof. reflexivity. Qed.

Lemma gets_bind {A} (f : state -> A) (k : A -> M B) s : (gets f ≫= k) s = k (f s) s.
Proof. reflexivity. Qed.

Lemma ret_bind {A} (a : A) (k : A -> M B) s : (mret a ≫= k) s = k a s.
Proof. reflexivity. Qed.

Lemma bind_assoc {A A'} (c : M A) (f : A -> M A') (k : A' -> M B) s :
  ((c ≫= f) ≫= k) s = (c ≫= (fun a => f a ≫= k)) s.
Proof.
  unfold mbind, M_bind. destruct (c s) as [s' [a | o]]; reflexivity.
Qed.

Lemma write_conf_bind f (k : unit -> M B) s :
  (lowconfig s =? NULL) = false ->
  (write_conf f ≫= k) s =
  k tt (mkState (shape s) (shape1 s) (lowconfig s) (f (conf s)) (status s) (trace s)).
Proof.
  intros H. unfold write_conf. rewrite bind_assoc, gets_bind, H. reflexivity.
Qed.

Lemma read_conf_bind {A} (f : ARLConf -> A) (k : A -> M B) s :
  (lowconfig s =? NULL) = false ->
  (read_conf f ≫= k) s = k (f (conf s)) s.
Proof.
  intros H. unfold read_conf. rewrite bind_assoc, gets_bind, H. reflexivity.
Qed.

Lemma defined_bind {A} (x : option A) (a : A) (k : A -> M B) s :
  x = Some a -> (defined x ≫= k) s = k a s.
Proof. intros ->. reflexivity. Qed.

Lemma deref_bind {A} p (v : A) (k : A -> M B) s :
  (p =? NULL) = false -> (deref p v ≫= k) s = k v s.
Proof. unfold deref. intros ->. reflexivity. Qed.

Lemma exit_bind {A} code (k : A -> M B) s :
  (exit code ≫= k) s = (s, inr (Exit code)).
Proof. reflexivity. Qed.

Lemma for_loop_O_bind i body (k : unit -> M B) s :
  (for_loop 0 i body ≫= k) s = k tt s.
Proof. reflexivity. Qed.

Lemma for_loop_S_bind n i body (k : unit -> M B) s :
  (for_loop (S n) i body ≫= k) s =
  (body i ≫= (fun _ => for_loop n (i + 1) body ≫= k)) s.
Proof. cbn [for_loop]. apply bind_assoc. Qed.

End Steps.

Lemma new_block_ok {A} p n (init : option A) :
  (p =? NULL) = false -> new_block p n init = mkBlock p (replicate (Z.to_nat n) init).
Proof. unfold new_block. intros ->. reflexivity. Qed.

Lemma store_ok {A} (b : block A) i v :
  (addr b =? NULL) = false -> (0 <=? i) && (i <? Z.of_nat (length (cells b))) = true ->
  store b i v = Some (mkBlock (addr b) (<[Z.to_nat i := Some v]> (cells b))).
Proof.
  unfold store. intros -> H. apply andb_true_iff in H as [H1 H2].
  apply Z.leb_le in H1. apply Z.ltb_lt in H2.
  replace (i <? 0) with false by (symmetry; apply Z.ltb_ge; lia).
  replace (_ <=? i) with false by (symmetry; apply Z.leb_gt; lia).
  reflexivity.
Qed.

Lemma load_ok {A} (b : block A) i v :
  (addr b =? NULL) = false -> (0 <=? i) = true ->
  mjoin (cells b !! Z.to_nat i) = Some v -> load b i = Some v.
Proof.
  unfold load. intros -> H1 H2. apply Z.leb_le in H1.
  replace (i <? 0) with false by (symmetry; apply Z.ltb_ge; lia).
  exact H2.
Qed.

(** Reduce the projections of explicit states, configurations and
    environments. *)
Ltac simpl_state :=
  cbn [shape shape1 lowconfig conf status trace addr cells
       set_polframe set_rmax set_nant set_nbases set_pc_ra set_pc_dec set_nfreqs
       set_nchanwidth set_ntimes set_freqs set_channel_bandwidth set_times set_nrec
       polframe rmax nant nbases pc_ra pc_dec nfreqs nchanwidth ntimes freqs
       channel_bandwidth times conf_npol nrec
       w_shape w_shape1 w_lowconfig w_defaults w_nant w_nbases w_freqs
       w_channel_bandwidth w_times w_vt w_vt_predictfunction w_vt_gt w_vtpredicted
       w_cindex_predict w_nrec w_gt w_vis_slices w_npixel w_cellsize w_image_shape
       w_gleam_model w_phasecentre_gleam w_status_mkdir w_status_gleam w_model
       w_phasecentre_model w_dirty w_status_dirty w_deconvolved w_residual
       w_restored w_status_deconvolved w_status_residual w_status_restored
       k_nfreqs k_fstart k_fend k_ntimes k_tstart k_tend fst snd].

(** A side condition is a fact on the environment or a closed
    computation. *)
Ltac side := simpl_state; first [assumption | vm_compute; reflexivity].

(** The operation has defined behaviour, with the value it gives. *)
Ltac solve_defined :=
  simpl_state;
  lazymatch goal with
  | |- store _ _ _ = Some _ => apply store_ok; side
  | |- load _ _ = Some _ => apply load_ok; side
  | |- _ => unfold CInt.sub, CInt.mul, CInt.add; apply checked_in; side
  end.

(** Run the first statement of the program of the goal. *)
Ltac step :=
  lazymatch goal with
  | |- (call ?e ≫= ?k) ?s = _ => rewrite (call_bind e k s)
  | |- (set_shape ?b ≫= ?k) ?s = _ => rewrite (set_shape_bind b k s)
  | |- (set_shape1 ?b ≫= ?k) ?s = _ => rewrite (set_shape1_bind b k s)
  | |- (set_status ?v ≫= ?k) ?s = _ => rewrite (set_status_bind v k s)
  | |- (set_lowconfig ?p ?c ≫= ?k) ?s = _ => rewrite (set_lowconfig_bind p c k s)
  | |- (gets ?f ≫= ?k) ?s = _ => rewrite (gets_bind f k s)
  | |- (mret ?a ≫= ?k) ?s = _ => rewrite (ret_bind a k s)
  | |- (write_conf ?f ≫= ?k) ?s = _ => rewrite (write_conf_bind f k s) by side
  | |- (read_conf ?f ≫= ?k) ?s = _ => rewrite (read_conf_bind f k s) by side
  | |- (defined ?x ≫= ?k) ?s = _ => erewrite (defined_bind x _ k s) by solve_defined
  | |- (deref ?p ?v ≫= ?k) ?s = _ => rewrite (deref_bind p v k s) by side
  | |- (for_loop O ?i ?body ≫= ?k) ?s = _ => rewrite (for_loop_O_bind i body k s)
  | |- (for_loop (S ?n) ?i ?body ≫= ?k) ?s = _ => rewrite (for_loop_S_bind n i body k s)
  | |- (for_loop (Z.to_nat ?z) _ _ ≫= _) _ = _ =>
      let n := eval vm_compute in (Z.to_nat z) in change (Z.to_nat z) with n
  | |- (exit ?c ≫= ?k) ?s = _ => rewrite (exit_bind c k s)
  | |- ((if ?b then _ else _) ≫= _) _ = _ =>
      first [ replace b with false by (symmetry; side)
            | replace b with true by (symmetry; side) ]
  | |- ((?c ≫= ?f) ≫= ?k) ?s = _ => rewrite (bind_assoc c f k s)
  end;
  cbv beta zeta; simpl_state; rewrite ?new_block_ok by assumption.

(** Split the hypothesis on the environment into its conjuncts. *)
Ltac split_facts H :=
  repeat match type of H with
         | _ && _ = true =>
             let H1 := fresh "F" in
             apply andb_true_iff in H; destruct H as [H1 H]; split_facts H1
         | negb _ = true => apply negb_true_iff in H
         end.

(** Name every answer of the environment. *)
Ltac destruct_world w :=
  destruct w as [? ? ? [] ? ? ? ? ? ? ? ? ? ? ? ? ? ? ? [[[? ?] ?] ?]
                 ? ? ? ? ? ? ? ? ? ? ? ? ? ?].

(** *** The run on which all goes well *)

Lemma main_normal w :
  normal source_constants w = true ->
  main w initial_state = (normal_state w, inr (Exit 0)).
Proof.
  destruct_world w.
  unfold normal, allocations_succeed, sizes_representable, source_constants.
  simpl_state. intros H. split_facts H.
  unfold main, main_with, source_constants. cbv beta zeta. simpl_state.
  repeat step.
  reflexivity.
Qed.

Lemma run_main_normal w :
  normal source_constants w = true -> run (main w) = (normal_state w, Exit 0).
Proof. intros H. unfold run. rewrite (main_normal w H). reflexivity. Qed.

Lemma calls_main_normal w :
  normal source_constants w = true -> calls (run (main w)) = normal_calls w.
Proof.
  intros H. rewrite (run_main_normal w H). unfold calls, normal_state. cbn [fst trace].
  apply rev_involutive.
Qed.

Lemma allocations_normal w :
  allocations (normal_calls w) =
    [ (Scratch, w_shape w); (Scratch, w_shape1 w); (Config, w_lowconfig w);
      (Scratch, w_freqs w); (Scratch, w_channel_bandwidth w); (Scratch, w_times w);
      (Visibility, w_vt w); (Visibility, w_vt_predictfunction w);
      (Visibility, w_vt_gt w); (Visibility, w_vtpredicted w);
      (Scratch, w_cindex_predict w); (GainTable, w_gt w);
      (Image, w_gleam_model w); (Image, w_model w); (Image, w_dirty w);
      (Image, w_deconvolved w); (Image, w_residual w); (Image, w_restored w) ].
Proof. reflexivity. Qed.

Lemma releases_normal w :
  releases (normal_calls w) = default_releases w ++ cleanup_releases w.
Proof. reflexivity. Qed.

(** Membership in a list that is written out. *)
Ltac in_list := cbn [In]; repeat (first [left; reflexivity | right]).

(** ** Statuses (C2) *)

(** *** The variable [status] flows nowhere *)

Section Sim.

Lemma agree_refl s : agree s s.
Proof. repeat split. Qed.

Lemma sim_bind {A B} (c1 c2 : M A) (k1 k2 : A -> M B) :
  sim c1 c2 -> (forall a, sim (k1 a) (k2 a)) -> sim (c1 ≫= k1) (c2 ≫= k2).
Proof.
  intros Hc Hk s1 s2 Ha. unfold mbind, M_bind.
  destruct (Hc s1 s2 Ha) as [Ha' Hv].
  destruct (c1 s1) as [s1' [a1 | o1]], (c2 s2) as [s2' [a2 | o2]];
    cbn [fst snd] in *; try discriminate.
  - injection Hv as ->. apply Hk, Ha'.
  - injection Hv as ->. split; [exact Ha' | reflexivity].
Qed.

(** A program that neither reads nor writes the state. *)
Lemma sim_pure {A} (r : A + outcome) : sim (fun s => (s, r)) (fun s => (s, r)).
Proof. intros s1 s2 Ha. split; [exact Ha | reflexivity]. Qed.

Lemma sim_ret {A} (a : A) : sim (mret a) (mret a).
Proof. apply (sim_pure (inl a)). Qed.

Lemma sim_exit {A} code : sim (@exit A code) (exit code).
Proof. apply (sim_pure (inr (Exit code))). Qed.

Lemma sim_fault {A} : sim (@fault A) fault.
Proof. apply (sim_pure (inr Fault)). Qed.

Lemma sim_defined {A} (o : option A) : sim (defined o) (defined o).
Proof. destruct o; [apply sim_ret | apply sim_fault]. Qed.

Lemma sim_deref {A} p (v : A) : sim (deref p v) (deref p v).
Proof. unfold deref. destruct (p =? NULL); [apply sim_fault | apply sim_ret]. Qed.

Lemma sim_call e : sim (call e) (call e).
Proof.
  intros s1 s2 (H1 & H2 & H3 & H4 & H5). cbn. rewrite H5. repeat split; assumption.
Qed.

Lemma sim_set_shape b : sim (set_shape b) (set_shape b).
Proof. intros s1 s2 (H1 & H2 & H3 & H4 & H5). cbn. repeat split; assumption. Qed.

Lemma sim_set_shape1 b : sim (set_shape1 b) (set_shape1 b).
Proof. intros s1 s2 (H1 & H2 & H3 & H4 & H5). cbn. repeat split; assumption. Qed.

Lemma sim_set_lowconfig p c : sim (set_lowconfig p c) (set_lowconfig p c).
Proof. intros s1 s2 (H1 & H2 & H3 & H4 & H5). cbn. repeat split; assumption. Qed.

(** The one place where the two runs differ. *)
Lemma sim_set_status v1 v2 : sim (set_status v1) (set_status v2).
Proof. intros s1 s2 (H1 & H2 & H3 & H4 & H5). cbn. repeat split; assumption. Qed.

Lemma sim_gets_shape : sim (gets shape) (gets shape).
Proof. intros s1 s2 Ha. cbn. split; [exact Ha |]. destruct Ha as (-> & _). reflexivity. Qed.

Lemma sim_gets_shape1 : sim (gets shape1) (gets shape1).
Proof.
  intros s1 s2 Ha. cbn. split; [exact Ha |]. destruct Ha as (_ & -> & _). reflexivity.
Qed.

Lemma sim_gets_lowconfig : sim (gets lowconfig) (gets lowconfig).
Proof.
  intros s1 s2 Ha. cbn. split; [exact Ha |]. destruct Ha as (_ & _ & -> & _).
  reflexivity.
Qed.

Lemma sim_gets_conf {A} (f : ARLConf -> A) :
  sim (gets (fun s => f (conf s))) (gets (fun s => f (conf s))).
Proof.
  intros s1 s2 Ha. cbn. split; [exact Ha |]. destruct Ha as (_ & _ & _ & -> & _).
  reflexivity.
Qed.

Lemma sim_if {A} (b : bool) (c1 c2 d1 d2 : M A) :
  sim c1 c2 -> sim d1 d2 -> sim (if b then c1 else d1) (if b then c2 else d2).
Proof. destruct b; auto. Qed.

Lemma sim_read_conf {A} (f : ARLConf -> A) : sim (read_conf f) (read_conf f).
Proof.
  unfold read_conf. apply sim_bind; [apply sim_gets_lowconfig | intros p].
  apply sim_if; [apply sim_fault | apply sim_gets_conf].
Qed.

Lemma sim_write_conf f : sim (write_conf f) (write_conf f).
Proof.
  unfold write_conf. apply sim_bind; [apply sim_gets_lowconfig | intros p].
  apply sim_if; [apply sim_fault |].
  apply sim_bind; [apply (sim_gets_conf (fun c => c)) | intros c].
  apply sim_set_lowconfig.
Qed.

Lemma sim_for_loop n : forall i (body1 body2 : Z -> M unit),
  (forall j, sim (body1 j) (body2 j)) ->
  sim (for_loop n i body1) (for_loop n i body2).
Proof.
  induction n as [|n IH]; intros i body1 body2 Hb; cbn [for_loop].
  - apply sim_ret.
  - apply sim_bind; [apply Hb | intros _; apply IH, Hb].
Qed.

End Sim.

(** Compare two programs of the same shape statement by statement. *)
Ltac sim_step :=
  lazymatch goal with
  | |- sim (_ ≫= _) (_ ≫= _) => apply sim_bind; [| intros ?]
  | |- sim (call _) _ => apply sim_call
  | |- sim (set_status _) _ => apply sim_set_status
  | |- sim (set_shape _) _ => apply sim_set_shape
  | |- sim (set_shape1 _) _ => apply sim_set_shape1
  | |- sim (set_lowconfig _ _) _ => apply sim_set_lowconfig
  | |- sim (gets shape) _ => apply sim_gets_shape
  | |- sim (gets shape1) _ => apply sim_gets_shape1
  | |- sim (gets lowconfig) _ => apply sim_gets_lowconfig
  | |- sim (read_conf _) _ => apply sim_read_conf
  | |- sim (write_conf _) _ => apply sim_write_conf
  | |- sim (defined _) _ => apply sim_defined
  | |- sim (deref _ _) _ => apply sim_deref
  | |- sim (for_loop _ _ _) _ => apply sim_for_loop; intros ?
  | |- sim (if _ then _ else _) _ => apply sim_if
  | |- sim (exit _) _ => apply sim_exit
  | |- sim (mret _) _ => apply sim_ret
  end.

Lemma main_sim_statuses k w m g d dc rs rt :
  sim (main_with k (with_statuses m g d dc rs rt w)) (main_with k w).
Proof.
  unfold main_with, with_statuses. cbv beta zeta. simpl_state.
  repeat sim_step.
Qed.

Lemma normal_with_statuses k m g d dc rs rt w :
  normal k (with_statuses m g d dc rs rt w) = normal k w.
Proof. reflexivity. Qed.

(** C2, as the code has it. The driver stores the status of [mkdir] and
    of each FITS export in [status] and never reads it: whatever the six
    statuses are, and whatever else happens in the run, [main] makes
    exactly the calls it makes when they are all as in [w], and ends the
    same way; on a run on which all allocations succeed it goes through
    every stage of the pipeline and returns 0. *)
Theorem statuses_are_ignored (w : world) (m g d dc rs rt : Z) :
  (run (main (with_statuses m g d dc rs rt w))).2 = (run (main w)).2 /\
  calls (run (main (with_statuses m g d dc rs rt w))) = calls (run (main w)) /\
  (normal source_constants w = true ->
   (run (main (with_statuses m g d dc rs rt w))).2 = Exit 0 /\
   transitions (calls (run (main (with_statuses m g d dc rs rt w)))) = source_order).
Proof.
  destruct (main_sim_statuses source_constants w m g d dc rs rt
              initial_state initial_state (agree_refl _)) as [Ha Hv].
  fold (main (with_statuses m g d dc rs rt w)) in Ha, Hv.
  fold (main w) in Ha, Hv.
  assert (Ho : (run (main (with_statuses m g d dc rs rt w))).2 = (run (main w)).2).
  { unfold run.
    destruct (main (with_statuses m g d dc rs rt w) initial_state) as [s1 [a1 | o1]],
             (main w initial_state) as [s2 [a2 | o2]];
      cbn [fst snd] in *; congruence. }
  assert (Hc : calls (run (main (with_statuses m g d dc rs rt w))) =
               calls (run (main w))).
  { unfold calls, run.
    destruct (main (with_statuses m g d dc rs rt w) initial_state) as [s1 [a1 | o1]],
             (main w initial_state) as [s2 [a2 | o2]];
      cbn [fst snd] in *; destruct Ha as (_ & _ & _ & _ & ->); reflexivity. }
  split; [exact Ho |]. split; [exact Hc |].
  intros H. rewrite Ho, Hc, (calls_main_normal _ H), (run_main_normal _ H).
  split; reflexivity.
Qed.

Lemma statuses_are_ignored_witness :
  (run (main (with_statuses (-1) 1 1 1 1 1 demo_world))).2 =
    (run (main demo_world)).2 /\
  calls (run (main (with_statuses (-1) 1 1 1 1 1 demo_world))) =
    calls (run (main demo_world)) /\
  (run (main (with_statuses (-1) 1 1 1 1 1 demo_world))).2 = Exit 0 /\
  transitions (calls (run (main (with_statuses (-1) 1 1 1 1 1 demo_world)))) =
    source_order.
Proof.
  destruct (statuses_are_ignored demo_world (-1) 1 1 1 1 1) as (Ho & Hc & Hn).
  split; [exact Ho |]. split; [exact Hc |].
  apply Hn. vm_compute. reflexivity.
Defined.

(** C2 fails as stated: [mkdir] returns -1 and every export returns 1,
    and the driver still runs every later stage and returns 0. *)
Lemma status_failure_does_not_abort :
  (run (main (with_statuses (-1) 1 1 1 1 1 demo_world))).2 = Exit 0 /\
  transitions (after is_mkdir
                 (calls (run (main (with_statuses (-1) 1 1 1 1 1 demo_world))))) =
    [Exported; Predicted; Converted; GainCreated; GainSimulated; GainApplied;
     ModelImageBuilt; Inverted; Exported; Calibrated; Exported; Released].
Proof. vm_compute. split; reflexivity. Qed.

(** ** Order of the stages (C3) *)

(** C3, as the code has it. On a run on which all allocations succeed:
    [arl_initialize] is the first call into the library and is made once;
    the stages follow the order of the source, in which the sky model is
    exported right after its synthesis and the dirty image right after
    the inversion; every stage but export and release is entered exactly
    once; ICAL is called once, with the visibilities that
    [arl_apply_gaintable] wrote, the model image, [adv.vis_slices] and
    three images allocated before the call; after ICAL come the three
    exports of its outputs and then the releases. *)
Theorem pipeline_order (w : world) :
  normal source_constants w = true ->
  (run (main w)).2 = Exit 0 /\
  head (library_calls (calls (run (main w)))) = Some Ev.arl_initialize /\
  length (filter (fun e => is_initialize e = true) (calls (run (main w)))) = 1%nat /\
  transitions (calls (run (main w))) = source_order /\
  Forall (fun st => times_entered st (calls (run (main w))) = 1%nat)
    [VisibilityCreated; Advised; SkyModelBuilt; Predicted; Converted; GainCreated;
     GainSimulated; GainApplied; ModelImageBuilt; Inverted; Calibrated] /\
  times_entered Exported (calls (run (main w))) = 5%nat /\
  filter (fun e => enters Calibrated e = true) (calls (run (main w))) =
    [Ev.arl_ical (w_lowconfig w) (w_vt_gt w) (w_model w) (w_vis_slices w)
       (w_deconvolved w) (w_residual w) (w_restored w)] /\
  (In (Ev.arl_apply_gaintable (w_lowconfig w) (w_vt w) (w_gt w) (w_vt_gt w))
      (before (enters Calibrated) (calls (run (main w)))) /\
   In (Ev.arl_create_image_from_blockvisibility (w_lowconfig w) (w_vt w)
         (w_cellsize w) (w_npixel w) (w_phasecentre_model w) (w_model w))
      (before (enters Calibrated) (calls (run (main w)))) /\
   In (Ev.allocate_image (single_channel_shape w) (w_deconvolved w))
      (before (enters Calibrated) (calls (run (main w)))) /\
   In (Ev.allocate_image (single_channel_shape w) (w_residual w))
      (before (enters Calibrated) (calls (run (main w)))) /\
   In (Ev.allocate_image (single_channel_shape w) (w_restored w))
      (before (enters Calibrated) (calls (run (main w))))) /\
  stages (after (enters Calibrated) (calls (run (main w)))) =
    [Exported; Exported; Exported] ++ replicate 11 Released.
Proof.
  intros H.
  rewrite (calls_main_normal _ H), (run_main_normal _ H).
  split; [reflexivity |].
  split; [reflexivity |].
  split; [reflexivity |].
  split; [reflexivity |].
  split; [repeat constructor |].
  split; [reflexivity |].
  split; [reflexivity |].
  split; [| reflexivity].
  repeat split; in_list.
Qed.

Lemma pipeline_order_witness :
  (run (main demo_world)).2 = Exit 0 /\
  head (library_calls (calls (run (main demo_world)))) = Some Ev.arl_initialize /\
  length (filter (fun e => is_initialize e = true)
            (calls (run (main demo_world)))) = 1%nat /\
  transitions (calls (run (main demo_world))) = source_order /\
  Forall (fun st => times_entered st (calls (run (main demo_world))) = 1%nat)
    [VisibilityCreated; Advised; SkyModelBuilt; Predicted; Converted; GainCreated;
     GainSimulated; GainApplied; ModelImageBuilt; Inverted; Calibrated] /\
  times_entered Exported (calls (run (main demo_world))) = 5%nat /\
  filter (fun e => enters Calibrated e = true) (calls (run (main demo_world))) =
    [Ev.arl_ical 2000 4200 8100 1 8300 8400 8500] /\
  (In (Ev.arl_apply_gaintable 2000 4000 6000 4200)
      (before (enters Calibrated) (calls (run (main demo_world)))) /\
   In (Ev.arl_create_image_from_blockvisibility 2000 4000 0.0005%float 512 4050 8100)
      (before (enters Calibrated) (calls (run (main demo_world)))) /\
   In (Ev.allocate_image [Some 1; Some 1; Some 512; Some 512] 8300)
      (before (enters Calibrated) (calls (run (main demo_world)))) /\
   In (Ev.allocate_image [Some 1; Some 1; Some 512; Some 512] 8400)
      (before (enters Calibrated) (calls (run (main demo_world)))) /\
   In (Ev.allocate_image [Some 1; Some 1; Some 512; Some 512] 8500)
      (before (enters Calibrated) (calls (run (main demo_world))))) /\
  stages (after (enters Calibrated) (calls (run (main demo_world)))) =
    [Exported; Exported; Exported] ++ replicate 11 Released.
Proof.
  apply (pipeline_order demo_world). vm_compute. reflexivity.
Defined.

(** C3 fails as stated: export is not a single stage after ICAL. On the
    concrete run the stages are not in the order with one export phase;
    an export precedes the prediction, and export is entered five times. *)
Lemma export_before_prediction :
  transitions (calls (run (main demo_world))) <> single_export_order /\
  stages (before (enters Predicted) (calls (run (main demo_world)))) =
    [VisibilityCreated; Advised; SkyModelBuilt; Exported] /\
  times_entered Exported (calls (run (main demo_world))) = 5%nat.
Proof.
  vm_compute. split; [discriminate | split; reflexivity].
Qed.

(** ** Frequency and time lists (C4, C5, C6) *)

(** C4. The frequency list the driver leaves in [lowconfig] for
    [fstart = 0.8e8], [fend = 1.2e8], [nfreqs = 5] is
    [0.8e8, 0.9e8, 1.0e8, 1.1e8, 1.2e8] and each of the five channel
    bandwidths is [1.0e7], exactly, in binary64. *)
Theorem frequency_list (w : world) :
  normal source_constants w = true ->
  cells (freqs (conf (run (main w)).1)) =
    [Some 0.8e8%float; Some 0.9e8%float; Some 1.0e8%float; Some 1.1e8%float;
     Some 1.2e8%float] /\
  cells (channel_bandwidth (conf (run (main w)).1)) = replicate 5 (Some 1.0e7%float).
Proof.
  intros H. rewrite (run_main_normal _ H). split; reflexivity.
Qed.

Lemma frequency_list_witness :
  cells (freqs (conf (run (main demo_world)).1)) =
    [Some 0.8e8%float; Some 0.9e8%float; Some 1.0e8%float; Some 1.1e8%float;
     Some 1.2e8%float] /\
  cells (channel_bandwidth (conf (run (main demo_world)).1)) =
    replicate 5 (Some 1.0e7%float).
Proof. apply (frequency_list demo_world). vm_compute. reflexivity. Defined.

(** C5, as the code has it. The time list has 11 entries, entry [i]
    being [tstart + i * tdelta] rounded to binary64 with
    [tdelta = (tend - tstart) / 10]; the first is [-M_PI/3] and the last is
    [M_PI/3] exactly; consecutive entries differ by [tdelta] up to
    rounding, within [2^-52]. *)
Theorem time_list (w : world) :
  normal source_constants w = true ->
  cells (times (conf (run (main w)).1)) =
    Some <$> doubles (times (conf (run (main w)).1)) /\
  doubles (times (conf (run (main w)).1)) =
    (fun i => (- CDouble.M_PI / 3.0 + CDouble.of_int i *
               ((CDouble.M_PI / 3.0 - - CDouble.M_PI / 3.0) / 10))%float)
      <$> seqZ 0 11 /\
  length (doubles (times (conf (run (main w)).1))) = 11%nat /\
  head (doubles (times (conf (run (main w)).1))) = Some (- CDouble.M_PI / 3.0)%float /\
  last (doubles (times (conf (run (main w)).1))) = Some (CDouble.M_PI / 3.0)%float /\
  forallb (fun d => within 0x1p-52 d
                      ((CDouble.M_PI / 3.0 - - CDouble.M_PI / 3.0) / 10)%float)
          (differences (doubles (times (conf (run (main w)).1)))) = true.
Proof.
  intros H. rewrite (run_main_normal _ H).
  cbn [fst normal_state conf normal_conf times].
  vm_compute. repeat split.
Qed.

Lemma time_list_witness :
  cells (times (conf (run (main demo_world)).1)) =
    Some <$> doubles (times (conf (run (main demo_world)).1)) /\
  doubles (times (conf (run (main demo_world)).1)) =
    (fun i => (- CDouble.M_PI / 3.0 + CDouble.of_int i *
               ((CDouble.M_PI / 3.0 - - CDouble.M_PI / 3.0) / 10))%float)
      <$> seqZ 0 11 /\
  length (doubles (times (conf (run (main demo_world)).1))) = 11%nat /\
  head (doubles (times (conf (run (main demo_world)).1))) =
    Some (- CDouble.M_PI / 3.0)%float /\
  last (doubles (times (conf (run (main demo_world)).1))) =
    Some (CDouble.M_PI / 3.0)%float /\
  forallb (fun d => within 0x1p-52 d
                      ((CDouble.M_PI / 3.0 - - CDouble.M_PI / 3.0) / 10)%float)
          (differences (doubles (times (conf (run (main demo_world)).1)))) = true.
Proof. apply (time_list demo_world). vm_compute. reflexivity. Defined.

(** C5 fails as stated: the consecutive differences of the time list are
    not all equal to [(tend - tstart) / 10]. The first one is
    [0x1.acee9f37bebd4p-3], one unit in the last place below
    [tdelta = 0x1.acee9f37bebd5p-3], and the subtraction that gives it is
    exact. *)
Lemma time_steps_not_all_equal :
  ~ Forall (fun d => d = ((k_tend source_constants - k_tstart source_constants) / 10)%float)
           (differences (doubles (times (conf (run (main demo_world)).1)))).
Proof.
  intros H.
  assert (E : differences (doubles (times (conf (run (main demo_world)).1))) =
    [0x1.acee9f37bebd4p-3; 0x1.acee9f37bebd4p-3; 0x1.acee9f37bebd8p-3;
     0x1.acee9f37bebd4p-3; 0x1.acee9f37bebd4p-3; 0x1.acee9f37bebd8p-3;
     0x1.acee9f37bebdp-3; 0x1.acee9f37bebd8p-3; 0x1.acee9f37bebd8p-3;
     0x1.acee9f37bebdp-3]%float) by (vm_compute; reflexivity).
  rewrite E in H. apply Forall_inv in H.
  assert (F : PrimFloat.eqb 0x1.acee9f37bebd4p-3
                ((k_tend source_constants - k_tstart source_constants) / 10) = false)
    by (vm_compute; reflexivity).
  rewrite <- H in F. vm_compute in F. discriminate.
Qed.

(** The first two entries and [tdelta] as mantissa and exponent: the
    exact difference of the entries is [7545853602163668 * 2^-55], and
    [tdelta] is [7545853602163669 * 2^-55]. *)
Example first_time_step_exact :
  Prim2SF (- CDouble.M_PI / 3.0)%float = S754_finite true 4716158501352293 (-52) /\
  Prim2SF (- CDouble.M_PI / 3.0 + CDouble.of_int 1 * source_tdelta)%float =
    S754_finite true 7545853602163669 (-53) /\
  Prim2SF source_tdelta = S754_finite false 7545853602163669 (-55) /\
  4 * (2 * 4716158501352293 - 7545853602163669) = 7545853602163668.
Proof. vm_compute. repeat split. Qed.

(** ** Image shapes (C7) *)

(** C7. On a run on which all allocations succeed, with
    [(s0, s1, s2, s3)] the shape [helper_get_image_shape_multifreq] wrote
    for the advisory [npixel]: the sky model is allocated with that shape,
    and the model, the dirty image and the three ICAL outputs are each
    allocated with [1, s1, s2, s3]; six images are allocated in all, and
    the three outputs are those passed to [arl_ical]. *)
Theorem image_shapes (w : world) (s0 s1 s2 s3 : Z) :
  normal source_constants w = true ->
  w_image_shape w = (s0, s1, s2, s3) ->
  In (Ev.helper_get_image_shape_multifreq (w_lowconfig w) (w_cellsize w)
        (w_npixel w) (w_shape w)) (calls (run (main w))) /\
  image_allocations (calls (run (main w))) =
    [ ([Some s0; Some s1; Some s2; Some s3], w_gleam_model w);
      ([Some 1; Some s1; Some s2; Some s3], w_model w);
      ([Some 1; Some s1; Some s2; Some s3], w_dirty w);
      ([Some 1; Some s1; Some s2; Some s3], w_deconvolved w);
      ([Some 1; Some s1; Some s2; Some s3], w_residual w);
      ([Some 1; Some s1; Some s2; Some s3], w_restored w) ] /\
  In (Ev.arl_ical (w_lowconfig w) (w_vt_gt w) (w_model w) (w_vis_slices w)
        (w_deconvolved w) (w_residual w) (w_restored w)) (calls (run (main w))).
Proof.
  intros H Hs.
  rewrite (calls_main_normal _ H).
  unfold normal_calls, pipeline_calls, sky_shape, single_channel_shape.
  rewrite Hs. cbn [fst snd].
  split; [| split; [reflexivity |]].
  - apply in_or_app. right. apply in_or_app. left. in_list.
  - apply in_or_app. right. apply in_or_app. left. in_list.
Qed.

Lemma image_shapes_witness :
  In (Ev.helper_get_image_shape_multifreq 2000 0.0005%float 512 1000)
     (calls (run (main demo_world))) /\
  image_allocations (calls (run (main demo_world))) =
    [ ([Some 5; Some 1; Some 512; Some 512], 8000);
      ([Some 1; Some 1; Some 512; Some 512], 8100);
      ([Some 1; Some 1; Some 512; Some 512], 8200);
      ([Some 1; Some 1; Some 512; Some 512], 8300);
      ([Some 1; Some 1; Some 512; Some 512], 8400);
      ([Some 1; Some 1; Some 512; Some 512], 8500) ] /\
  In (Ev.arl_ical 2000 4200 8100 1 8300 8400 8500) (calls (run (main demo_world))).
Proof.
  apply (image_shapes demo_world 5 1 512 512); vm_compute; reflexivity.
Defined.

(** ** Release of the buffers (C8) *)

Lemma filter_none (l : list (kind * ptr)) p :
  ~ In p (l.*2) -> filter (fun y => (y.2 =? p) = true) l = [].
Proof.
  induction l as [|a l IH]; intros Hn; [reflexivity |].
  cbn in Hn. rewrite filter_cons_False.
  - apply IH. tauto.
  - intros E. apply Z.eqb_eq in E. tauto.
Qed.

(** Among releases of pairwise distinct addresses, each address is
    released once. *)
Lemma released_once (l : list (kind * ptr)) x :
  NoDup (l.*2) -> In x l ->
  length (filter (fun y => (y.2 =? x.2) = true) l) = 1%nat.
Proof.
  induction l as [|a l IH]; intros Hd Hin; [destruct Hin |].
  cbn in Hd. apply NoDup_cons in Hd as [Hna Hd].
  rewrite list_elem_of_In in Hna.
  destruct Hin as [-> | Hin].
  - rewrite filter_cons_True by apply Z.eqb_refl.
    cbn [length]. f_equal.
    apply (f_equal length (filter_none l (x.2) Hna)).
  - rewrite filter_cons_False.
    + apply IH; assumption.
    + intros E. apply Z.eqb_eq in E.
      pose proof (in_map snd l x Hin) as Hx. rewrite <- E in Hx.
      exact (Hna Hx).
Qed.

(** A buffer handed out by call number [i], when the releases after
    that call are some that do not touch its address followed by releases
    of pairwise distinct addresses, its own among them. *)
Lemma released_once_after cs x i e l0 l :
  cs !! i = Some e ->
  allocated_by e = Some x ->
  releases (drop (S i) cs) = l0 ++ l ->
  ~ In x.2 (l0.*2) ->
  NoDup (l.*2) ->
  In x l ->
  released_once_since_allocated x cs.
Proof.
  intros Hi He Hr Hn Hd Hin.
  exists (take i cs), e, (drop (S i) cs).
  split; [symmetry; apply take_drop_middle, Hi |].
  split; [exact He |].
  unfold times_released. rewrite Hr, filter_app, length_app.
  change 1%nat with (0 + 1)%nat.
  apply f_equal2;
    [exact (f_equal length (filter_none l0 _ Hn)) | exact (released_once l x Hd Hin)].
Qed.

(** The buffer of the goal is the one call number [i] of the run hands
    out, and the releases after that call are [l0] and those of the
    cleanup. *)
Ltac allocated_at w i l0 Hd :=
  eapply (released_once_after _ _ i _ l0 (cleanup_releases w));
    [ reflexivity | reflexivity | reflexivity
    | first [assumption | intros []]
    | exact Hd
    | unfold cleanup_releases; in_list ].

(** C8, as the code has it. On a run on which all allocations succeed,
    the last fourteen calls of [main] give back, in this order, the six
    images, the four visibility buffers, the gain table, and the scratch
    arrays [cindex_predict], [shape] and [shape1]; each of them was handed
    out earlier in the run; and when the allocator gave buffers that are
    live at the same time different addresses, each of the fourteen is
    given back exactly once after it was handed out. *)
Theorem cleanup_order (w : world) :
  normal source_constants w = true ->
  (run (main w)).2 = Exit 0 /\
  (exists pre, calls (run (main w)) = pre ++ cleanup_calls w) /\
  length (cleanup_calls w) = 14%nat /\
  releases (cleanup_calls w) = cleanup_releases w /\
  kind_order (cleanup_releases w) = [Image; Visibility; GainTable; Scratch] /\
  Forall (fun x => In x (allocations (calls (run (main w))))) (cleanup_releases w) /\
  (answers_distinct w ->
   Forall (fun x => released_once_since_allocated x (calls (run (main w))))
          (cleanup_releases w)).
Proof.
  intros H.
  rewrite (calls_main_normal _ H), (run_main_normal _ H).
  split; [reflexivity |].
  split.
  { exists (setup_calls w ++ pipeline_calls w).
    unfold normal_calls. rewrite app_assoc. reflexivity. }
  split; [reflexivity |].
  split; [reflexivity |].
  split; [reflexivity |].
  split.
  { rewrite allocations_normal. unfold cleanup_releases.
    repeat (apply Forall_cons; split; [in_list |]).
    apply Forall_nil. exact I. }
  intros (Hd & Hs & Hs1).
  assert (Hnil : ~ In (w_shape w) (([] : list (kind * ptr)).*2)) by (intros []).
  unfold cleanup_releases at 1.
  repeat apply Forall_cons_2; [.. | apply Forall_nil_2].
  - allocated_at w 20%nat (@nil (kind * ptr)) Hd.
  - allocated_at w 29%nat (@nil (kind * ptr)) Hd.
  - allocated_at w 31%nat (@nil (kind * ptr)) Hd.
  - allocated_at w 34%nat (@nil (kind * ptr)) Hd.
  - allocated_at w 35%nat (@nil (kind * ptr)) Hd.
  - allocated_at w 36%nat (@nil (kind * ptr)) Hd.
  - allocated_at w 11%nat (@nil (kind * ptr)) Hd.
  - allocated_at w 14%nat (@nil (kind * ptr)) Hd.
  - allocated_at w 12%nat (@nil (kind * ptr)) Hd.
  - allocated_at w 13%nat (@nil (kind * ptr)) Hd.
  - allocated_at w 17%nat (@nil (kind * ptr)) Hd.
  - allocated_at w 15%nat (@nil (kind * ptr)) Hd.
  - allocated_at w 0%nat (default_releases w) Hd.
  - allocated_at w 1%nat (default_releases w) Hd.
Qed.

Lemma cleanup_order_witness :
  (run (main reused_world)).2 = Exit 0 /\
  (exists pre, calls (run (main reused_world)) = pre ++ cleanup_calls reused_world) /\
  length (cleanup_calls reused_world) = 14%nat /\
  releases (cleanup_calls reused_world) = cleanup_releases reused_world /\
  kind_order (cleanup_releases reused_world) = [Image; Visibility; GainTable; Scratch] /\
  Forall (fun x => In x (allocations (calls (run (main reused_world)))))
         (cleanup_releases reused_world) /\
  Forall (fun x => released_once_since_allocated x (calls (run (main reused_world))))
         (cleanup_releases reused_world).
Proof.
  destruct (cleanup_order reused_world) as (H1 & H2 & H3 & H4 & H5 & H6 & H7);
    [vm_compute; reflexivity |].
  repeat (split; [assumption |]).
  apply H7. split; [| split].
  - refine (bool_decide_unpack _ _). vm_compute. exact I.
  - vm_compute. intros [H | [H | [H | []]]]; discriminate.
  - vm_compute. intros [H | [H | [H | []]]]; discriminate.
Defined.

(** Counting over the whole run would count the release of an earlier
    buffer at the same address: here the first block visibility is at the
    address of the default frequency array freed at line 110. *)
Example reused_address_released_twice :
  normal source_constants reused_world = true /\
  times_released 7000 (calls (run (main reused_world))) = 2%nat.
Proof. vm_compute. split; reflexivity. Qed.

(** C8 fails as stated. On the concrete run the frequency array that
    [malloc] returned at 3000 is never released; and the kinds are not
    released in the reverse of the order they were allocated in: the gain
    table is allocated after the visibility buffers and released after
    them too. *)
Lemma cleanup_leaks_and_is_not_reversed :
  In (Scratch, 3000) (allocations (calls (run (main demo_world)))) /\
  times_released 3000 (calls (run (main demo_world))) = 0%nat /\
  kind_order (releases (calls (run (main demo_world)))) =
    [Scratch; Image; Visibility; GainTable; Scratch] /\
  rev (kind_order (allocations (calls (run (main demo_world))))) =
    [Image; GainTable; Scratch; Visibility; Scratch; Config; Scratch] /\
  (releases (calls (run (main demo_world)))).*2 <>
    rev ((allocations (calls (run (main demo_world)))).*2).
Proof.
  vm_compute. split; [repeat (first [left; reflexivity | right]) |].
  repeat split. discriminate.
Qed.

(** ** Failed allocations (C9) *)

Lemma main_cindex_failure w :
  reaches_cindex source_constants w = true ->
  w_cindex_predict w = NULL ->
  exists s, main w initial_state = (s, inr (Exit 1)) /\
            rev (trace s) = setup_calls w ++ [Ev.free NULL].
Proof.
  destruct_world w.
  unfold reaches_cindex, sizes_representable, source_constants.
  simpl_state. intros H E. subst. split_facts H.
  eexists. split.
  - unfold main, main_with, source_constants. cbv beta zeta. simpl_state.
    repeat step.
    reflexivity.
  - reflexivity.
Qed.

(** C9, as the code has it. When the run gets as far as the allocation of
    the conversion-index array and that [malloc] returns [NULL], [main]
    returns 1; the only call after the failed [malloc] is [free(NULL)], and
    no stage of the pipeline is entered in the whole run. *)
Theorem cindex_failure_aborts (w : world) :
  reaches_cindex source_constants w = true ->
  w_cindex_predict w = NULL ->
  (run (main w)).2 = Exit 1 /\
  calls (run (main w)) = setup_calls w ++ [Ev.free NULL] /\
  stages (calls (run (main w))) = [].
Proof.
  intros H E. destruct (main_cindex_failure w H E) as (s & Hs & Ht).
  unfold run, calls. rewrite Hs. cbn [fst snd]. rewrite Ht.
  repeat split.
Qed.

Lemma cindex_failure_aborts_witness :
  (run (main (with_cindex_predict NULL demo_world))).2 = Exit 1 /\
  calls (run (main (with_cindex_predict NULL demo_world))) =
    setup_calls (with_cindex_predict NULL demo_world) ++ [Ev.free NULL] /\
  stages (calls (run (main (with_cindex_predict NULL demo_world)))) = [].
Proof.
  apply (cindex_failure_aborts (with_cindex_predict NULL demo_world));
    vm_compute; reflexivity.
Defined.

(** C9 fails as stated. A request of zero bytes is not refused: with no
    antenna the conversion-index array is asked for with size 0, [malloc]
    answers with an address, and the run goes through every stage and
    returns 0. And a failed allocation other than that one is not
    noticed: the [malloc] of [shape1] returns [NULL], nine stages of the
    pipeline run, and the run then ends in the store [shape1[0] = shape[0]]
    through the null pointer, not in a return of a nonzero status. *)
Lemma unchecked_allocation_reaches_pipeline :
  (In (Ev.malloc 0 5000) (calls (run (main (with_nant 0 demo_world)))) /\
   (run (main (with_nant 0 demo_world))).2 = Exit 0 /\
   transitions (calls (run (main (with_nant 0 demo_world)))) = source_order)
  /\
  (In (Ev.malloc 16 NULL) (calls (run (main (with_shape1 NULL demo_world)))) /\
   (run (main (with_shape1 NULL demo_world))).2 = Fault /\
   stages (calls (run (main (with_shape1 NULL demo_world)))) =
     [VisibilityCreated; Advised; SkyModelBuilt; Exported; Predicted; Converted;
      GainCreated; GainSimulated; GainApplied]).
Proof.
  vm_compute. split.
  - split; [repeat (first [left; reflexivity | right]) |]. split; reflexivity.
  - split; [repeat (first [left; reflexivity | right]) |]. split; reflexivity.
Qed.

(** * Further properties *)

(** ** The verification helper, whatever the memory *)

Lemma compare_bytes_sym m p q n : forall i,
  compare_bytes m p q i n = compare_bytes m q p i n.
Proof.
  induction n as [|n IH]; intros i; [reflexivity |].
  cbn [compare_bytes].
  destruct (byte_at m !! (p + i)) as [x|], (byte_at m !! (q + i)) as [y|];
    cbn; try reflexivity.
  rewrite (Z.eqb_sym y x), IH. reflexivity.
Qed.

(** X1. The order of the two handles does not matter: for every memory
    and every pair of handles, live or not, [verify_arl_copy vt vtmp] and
    [verify_arl_copy vtmp vt] give the same result, undefined behaviour
    included. *)
Theorem verify_arl_copy_symmetric (m : memory) (vt vtmp : ptr) :
  verify_arl_copy m vt vtmp = verify_arl_copy m vtmp vt.
Proof.
  unfold verify_arl_copy. rewrite (Z.eqb_sym vtmp vt).
  destruct (vt =? vtmp); [reflexivity |].
  destruct (vis_at m !! vt) as [a|], (vis_at m !! vtmp) as [b|]; cbn; try reflexivity.
  rewrite (Z.eqb_sym (nvis b) (nvis a)), (Z.eqb_sym (npol b) (npol a)),
    (Z.eqb_sym (data b) (data a)).
  destruct (Z.eqb_spec (nvis a) (nvis b)) as [Hv | _]; [| reflexivity].
  destruct (Z.eqb_spec (npol a) (npol b)) as [Hp | _]; [| reflexivity].
  cbn. destruct (data a =? data b); [reflexivity |].
  unfold ARLVisDataSize. rewrite Hv, Hp.
  destruct (x ← CInt.mul 32 (npol b); y ← CInt.mul x (nvis b); CInt.add 80 y) as [s|];
    cbn; [apply compare_bytes_sym | reflexivity].
Qed.

Lemma compare_bytes_first_difference m p q x y n : forall i j,
  i <= j < i + Z.of_nat n ->
  (forall k, i <= k < j ->
     exists z, byte_at m !! (p + k) = Some z /\ byte_at m !! (q + k) = Some z) ->
  byte_at m !! (p + j) = Some x ->
  byte_at m !! (q + j) = Some y ->
  x <> y ->
  compare_bytes m p q i n = Some 4.
Proof.
  induction n as [|n IH]; intros i j Hj Heq Hx Hy Hne; [lia |].
  cbn [compare_bytes].
  destruct (Z.eq_dec i j) as [-> | Hij].
  - rewrite Hx, Hy. cbn. apply Z.eqb_neq in Hne. rewrite Hne. reflexivity.
  - destruct (Heq i ltac:(lia)) as (z & Hp & Hq). rewrite Hp, Hq. cbn.
    rewrite Z.eqb_refl. cbn.
    apply (IH (i + 1) j); try assumption; [lia |].
    intros k Hk. apply Heq. lia.
Qed.

Lemma ARLVisDataSize_Some v s : ARLVisDataSize v = Some s -> s = payload_extent v.
Proof.
  unfold ARLVisDataSize, CInt.mul, CInt.add, CInt.checked, payload_extent.
  destruct (CInt.in_range (32 * npol v)); cbn; [| discriminate].
  destruct (CInt.in_range (32 * npol v * nvis v)); cbn; [| discriminate].
  destruct (CInt.in_range (80 + 32 * npol v * nvis v)); [| discriminate].
  intros [= <-]. reflexivity.
Qed.

(** X2. The comparison stops at the first offset where the two payloads
    differ: when the bytes before offset [j] are readable and equal and
    the bytes at [j] are readable and differ, the result is 4, whatever
    lies after [j], readable or not. *)
Theorem verify_arl_copy_stops_at_first_difference
    (m : memory) (vt vtmp : ptr) (a b : ARLVis) (j x y : Z) :
  vt <> vtmp ->
  vis_at m !! vt = Some a ->
  vis_at m !! vtmp = Some b ->
  ~ shape_differs a b ->
  data a <> data b ->
  size_representable a = true ->
  0 <= j < payload_extent a ->
  (forall k, 0 <= k < j ->
     exists z, byte_at m !! (data a + k) = Some z /\ byte_at m !! (data b + k) = Some z) ->
  byte_at m !! (data a + j) = Some x ->
  byte_at m !! (data b + j) = Some y ->
  x <> y ->
  verify_arl_copy m vt vtmp = Some 4.
Proof.
  intros Hne Ha Hb Hs Hd Hsz Hj Heq Hx Hy Hxy. unfold verify_arl_copy.
  apply Z.eqb_neq in Hne. rewrite Hne, Ha, Hb. cbn.
  assert (Hv : (nvis a =? nvis b) = true).
  { apply Z.eqb_eq. destruct (Z.eq_dec (nvis a) (nvis b)); [assumption |].
    exfalso. apply Hs. left. assumption. }
  assert (Hp : (npol a =? npol b) = true).
  { apply Z.eqb_eq. destruct (Z.eq_dec (npol a) (npol b)); [assumption |].
    exfalso. apply Hs. right. assumption. }
  rewrite Hv, Hp. cbn. apply Z.eqb_neq in Hd. rewrite Hd.
  rewrite (ARLVisDataSize_representable _ Hsz). cbn.
  apply (compare_bytes_first_difference m _ _ x y _ 0 j); try assumption. lia.
Qed.

Lemma verify_arl_copy_stops_at_first_difference_witness :
  verify_arl_copy short_memory 100 200 = Some 4.
Proof.
  apply (verify_arl_copy_stops_at_first_difference
           short_memory 100 200 demo_vt demo_vtmp 2 7 9);
    try (vm_compute; reflexivity); try (vm_compute; discriminate).
  - intros [H | H]; vm_compute in H; congruence.
  - vm_compute. split; [discriminate | reflexivity].
  - intros k Hk. exists 0.
    assert (Hc : k = 0 \/ k = 1) by lia.
    destruct Hc as [-> | ->]; vm_compute; split; reflexivity.
Defined.

Lemma compare_bytes_ext m m' p q n : forall i,
  (forall k, i <= k < i + Z.of_nat n ->
     byte_at m !! (p + k) = byte_at m' !! (p + k) /\
     byte_at m !! (q + k) = byte_at m' !! (q + k)) ->
  compare_bytes m p q i n = compare_bytes m' p q i n.
Proof.
  induction n as [|n IH]; intros i H; [reflexivity |].
  cbn [compare_bytes]. destruct (H i ltac:(lia)) as [-> ->].
  rewrite (IH (i + 1)); [reflexivity |]. intros k Hk. apply H. lia.
Qed.

(** X3. The result depends on nothing but the two objects and the
    first [80 + 32*npol*nvis] bytes of their data: two memories that agree
    on these give the same result. *)
Theorem verify_arl_copy_reads_only_the_payload (m m' : memory) (vt vtmp : ptr) :
  vis_at m !! vt = vis_at m' !! vt ->
  vis_at m !! vtmp = vis_at m' !! vtmp ->
  (forall a b i, vis_at m !! vt = Some a -> vis_at m !! vtmp = Some b ->
     0 <= i < payload_extent a ->
     byte_at m !! (data a + i) = byte_at m' !! (data a + i) /\
     byte_at m !! (data b + i) = byte_at m' !! (data b + i)) ->
  verify_arl_copy m vt vtmp = verify_arl_copy m' vt vtmp.
Proof.
  intros Hvt Hvtmp Hbytes. unfold verify_arl_copy.
  destruct (vt =? vtmp); [reflexivity |].
  rewrite <- Hvt, <- Hvtmp.
  destruct (vis_at m !! vt) as [a|] eqn:Ha; [| reflexivity].
  destruct (vis_at m !! vtmp) as [b|] eqn:Hb; [| reflexivity].
  cbn.
  destruct (negb ((nvis a =? nvis b) && (npol a =? npol b))); [reflexivity |].
  destruct (data a =? data b); [reflexivity |].
  destruct (ARLVisDataSize a) as [s|] eqn:Hs; [| reflexivity]. cbn.
  apply ARLVisDataSize_Some in Hs. subst s.
  apply compare_bytes_ext. intros k Hk.
  apply (Hbytes a b k eq_refl eq_refl). lia.
Qed.


Lemma verify_arl_copy_reads_only_the_payload_witness :
  verify_arl_copy demo_memory 100 200 = verify_arl_copy wider_memory 100 200.
Proof.
  apply (verify_arl_copy_reads_only_the_payload demo_memory wider_memory 100 200);
    try reflexivity.
  intros a b i Ha Hb Hi.
  vm_compute in Ha. injection Ha as <-.
  vm_compute in Hb. injection Hb as <-.
  change (payload_extent (mkARLVis 1 1 1000 0)) with 112 in Hi.
  unfold wider_memory. cbn [byte_at data].
  split; rewrite lookup_insert_ne by lia; reflexivity.
Defined.

(** ** Every run of the driver *)

(** *** Statements that end the run *)

Section Faults.
Context {B : Type}.

Lemma write_conf_fault f (k : unit -> M B) s :
  (lowconfig s =? NULL) = true -> (write_conf f ≫= k) s = (s, inr Fault).
Proof.
  intros H. unfold write_conf. rewrite bind_assoc, gets_bind, H. reflexivity.
Qed.

Lemma read_conf_fault {A} (f : ARLConf -> A) (k : A -> M B) s :
  (lowconfig s =? NULL) = true -> (read_conf f ≫= k) s = (s, inr Fault).
Proof.
  intros H. unfold read_conf. rewrite bind_assoc, gets_bind, H. reflexivity.
Qed.

Lemma defined_fault {A} (x : option A) (k : A -> M B) s :
  x = None -> (defined x ≫= k) s = (s, inr Fault).
Proof. intros ->. reflexivity. Qed.

Lemma deref_fault {A} p (v : A) (k : A -> M B) s :
  (p =? NULL) = true -> (deref p v ≫= k) s = (s, inr Fault).
Proof. unfold deref. intros ->. reflexivity. Qed.

End Faults.

Lemma checked_out z : CInt.in_range z = false -> CInt.checked z = None.
Proof. unfold CInt.checked. intros ->. reflexivity. Qed.

Lemma store_null {A} (b : block A) i v : (addr b =? NULL) = true -> store b i v = None.
Proof. unfold store. intros ->. reflexivity. Qed.

Lemma new_block_null {A} n (init : option A) : new_block NULL n init = mkBlock NULL [].
Proof. reflexivity. Qed.

(** Side conditions, without evaluating what depends on the environment. *)
Ltac cside := simpl_state; first [assumption | reflexivity].

Ltac csolve_defined :=
  simpl_state;
  lazymatch goal with
  | |- store _ _ _ = Some _ => apply store_ok; cside
  | |- load _ _ = Some _ => apply load_ok; cside
  | |- _ => unfold CInt.sub, CInt.mul, CInt.add; apply checked_in; cside
  end.

Ltac csolve_undefined :=
  simpl_state;
  lazymatch goal with
  | |- store _ _ _ = None => apply store_null; cside
  | |- _ => unfold CInt.sub, CInt.mul, CInt.add; apply checked_out; cside
  end.

(** [step] for a goal that holds the program anywhere, with the
    statements that end the run. *)
Ltac cstep :=
  lazymatch goal with
  | |- context [(call ?e ≫= ?k) ?s] => rewrite (call_bind e k s)
  | |- context [(set_shape ?b ≫= ?k) ?s] => rewrite (set_shape_bind b k s)
  | |- context [(set_shape1 ?b ≫= ?k) ?s] => rewrite (set_shape1_bind b k s)
  | |- context [(set_status ?v ≫= ?k) ?s] => rewrite (set_status_bind v k s)
  | |- context [(set_lowconfig ?p ?c ≫= ?k) ?s] => rewrite (set_lowconfig_bind p c k s)
  | |- context [(gets ?f ≫= ?k) ?s] => rewrite (gets_bind f k s)
  | |- context [(mret ?a ≫= ?k) ?s] => rewrite (ret_bind a k s)
  | |- context [(write_conf ?f ≫= ?k) ?s] =>
      first [ rewrite (write_conf_bind f k s) by cside
            | rewrite (write_conf_fault f k s) by cside ]
  | |- context [(read_conf ?f ≫= ?k) ?s] =>
      first [ rewrite (read_conf_bind f k s) by cside
            | rewrite (read_conf_fault f k s) by cside ]
  | |- context [(defined ?x ≫= ?k) ?s] =>
      first [ erewrite (defined_bind x _ k s) by csolve_defined
            | rewrite (defined_fault x k s) by csolve_undefined ]
  | |- context [(deref ?p ?v ≫= ?k) ?s] =>
      first [ rewrite (deref_bind p v k s) by cside
            | rewrite (deref_fault p v k s) by cside ]
  | |- context [(for_loop O ?i ?body ≫= ?k) ?s] => rewrite (for_loop_O_bind i body k s)
  | |- context [(for_loop (S ?n) ?i ?body ≫= ?k) ?s] =>
      rewrite (for_loop_S_bind n i body k s)
  | |- context [(for_loop (Z.to_nat ?z) _ _ ≫= _) _] =>
      let n := eval vm_compute in (Z.to_nat z) in change (Z.to_nat z) with n
  | |- context [(exit ?c ≫= ?k) ?s] => rewrite (exit_bind c k s)
  | |- context [((if ?b then _ else _) ≫= _) _] =>
      first [ replace b with false by (symmetry; cside)
            | replace b with true by (symmetry; cside) ]
  | |- context [((?c ≫= ?f) ≫= ?k) ?s] => rewrite (bind_assoc c f k s)
  end;
  cbv beta zeta; simpl_state;
  rewrite ?new_block_ok by assumption; rewrite ?new_block_null.

(** Case analysis on a test the environment decides, once per test. *)
Ltac fresh_fact b :=
  lazymatch goal with
  | H : b = _ |- _ => fail "known"
  | _ => idtac
  end.

Ltac case_null p :=
  fresh_fact (p =? NULL);
  let E := fresh "E" in
  destruct (p =? NULL) eqn:E;
    [apply Z.eqb_eq in E; subst; rewrite ?new_block_null
    | rewrite ?new_block_ok by assumption].

Ltac csplit :=
  lazymatch goal with
  | |- context [(write_conf _ ≫= _) ?s] =>
      let p := eval cbn [lowconfig] in (lowconfig s) in case_null p
  | |- context [(read_conf _ ≫= _) ?s] =>
      let p := eval cbn [lowconfig] in (lowconfig s) in case_null p
  | |- context [(deref ?p _ ≫= _) _] => case_null p
  | |- context [(defined (store (new_block ?p _ _) _ _) ≫= _) _] => case_null p
  | |- context [(defined (CInt.mul ?a ?b) ≫= _) _] =>
      fresh_fact (CInt.in_range (a * b)); destruct (CInt.in_range (a * b)) eqn:?
  | |- context [((if ?p =? NULL then _ else _) ≫= _) _] => case_null p
  end.

(** Close a run that has ended. *)
Ltac use_facts :=
  repeat match goal with
         | H : ?b = true |- context [?b] => rewrite H
         | H : ?b = false |- context [?b] => rewrite H
         end.

Ltac prefix_here :=
  unfold first_calls, setup_calls, pipeline_calls, cindex_nbytes;
  cbn [rev app trace initial_state]; simpl_state;
  eexists; reflexivity.

Ltac finish_run :=
  unfold every_run, exit; cbn [fst snd];
  first
    [ left; split; [reflexivity |];
      unfold normal, allocations_succeed, sizes_representable, source_constants;
      simpl_state; use_facts; reflexivity
    | right; left; split; [reflexivity |]; split; [| reflexivity];
      unfold reaches_cindex, sizes_representable, source_constants;
      simpl_state; use_facts; reflexivity
    | right; right; split; [reflexivity |];
      split; [prefix_here |]; split; [prefix_here |];
      first [ left; reflexivity
            | right; split; [| assumption];
              unfold reaches_cindex, sizes_representable, source_constants;
              simpl_state; use_facts; reflexivity ] ].

(** *** All the runs of [main] *)

Lemma main_every_run w : every_run w (main w initial_state).
Proof.
  destruct_world w.
  unfold main, main_with, source_constants. cbv beta zeta. simpl_state.
  repeat (first [cstep | csplit]).
  all: finish_run.
Qed.

Lemma run_every w :
  ((run (main w)).2 = Exit 0 /\ normal source_constants w = true /\
   calls (run (main w)) = normal_calls w) \/
  ((run (main w)).2 = Exit 1 /\ reaches_cindex source_constants w = true /\
   w_cindex_predict w = NULL /\
   calls (run (main w)) = setup_calls w ++ [Ev.free NULL]) \/
  ((run (main w)).2 = Fault /\
   (exists rest, calls (run (main w)) = first_calls w ++ rest) /\
   (exists rest, setup_calls w ++ pipeline_calls w = calls (run (main w)) ++ rest) /\
   (stages (calls (run (main w))) = [] \/
    reaches_cindex source_constants w = true /\ (w_cindex_predict w =? NULL) = false)).
Proof.
  destruct (main_every_run w) as [(Ho & Hn) | [(Ho & Hr & Hc) | (Ho & Hf & Hp & Hg)]].
  - left. rewrite (calls_main_normal _ Hn), (run_main_normal _ Hn). auto.
  - right; left. destruct (main_cindex_failure w Hr Hc) as (s & Hs & Ht).
    unfold run, calls. rewrite Hs. cbn [fst snd]. auto.
  - right; right. unfold run, calls.
    destruct (main w initial_state) as [s [[] | o]]; cbn [fst snd] in *;
      [discriminate |].
    injection Ho as ->. auto.
Qed.

Lemma normal_reaches k w :
  normal k w = true ->
  reaches_cindex k w = true /\ (w_cindex_predict w =? NULL) = false.
Proof.
  unfold normal, allocations_succeed, reaches_cindex.
  rewrite !andb_true_iff, !negb_true_iff. tauto.
Qed.

(** X4. When the [int] products of lines 130 and 141 do not
    overflow, [main] returns 0 exactly when every allocation whose result
    it dereferences gave storage. *)
Theorem main_returns_zero_iff (w : world) :
  sizes_representable source_constants w = true ->
  ((run (main w)).2 = Exit 0 <-> allocations_succeed w = true).
Proof.
  intros Hs.
  assert (Hn : normal source_constants w = allocations_succeed w)
    by (unfold normal; rewrite Hs; apply andb_true_r).
  rewrite <- Hn. split.
  - intros H. destruct (run_every w) as [(_ & Hn' & _) | [(Ho & _) | (Ho & _)]];
      [exact Hn' | congruence | congruence].
  - intros H. rewrite (run_main_normal _ H). reflexivity.
Qed.

Lemma main_returns_zero_iff_witness :
  (run (main demo_world)).2 = Exit 0 <-> allocations_succeed demo_world = true.
Proof. apply (main_returns_zero_iff demo_world). vm_compute. reflexivity. Defined.

(** X5. [main] returns 1 exactly when the run gets as far as the
    allocation of the conversion-index array and that allocation fails;
    it returns no code other than 0 and 1; and it runs into undefined
    behaviour exactly in the remaining cases. *)
Theorem main_exit_codes (w : world) :
  ((run (main w)).2 = Exit 1 <->
   reaches_cindex source_constants w = true /\ w_cindex_predict w = NULL) /\
  (forall code, (run (main w)).2 = Exit code -> code = 0 \/ code = 1) /\
  ((run (main w)).2 = Fault <->
   normal source_constants w = false /\
   ~ (reaches_cindex source_constants w = true /\ w_cindex_predict w = NULL)).
Proof.
  assert (H1 : reaches_cindex source_constants w = true /\ w_cindex_predict w = NULL ->
               (run (main w)).2 = Exit 1).
  { intros [Hr Hc]. destruct (main_cindex_failure w Hr Hc) as (s & Hs & _).
    unfold run. rewrite Hs. reflexivity. }
  assert (H0 : normal source_constants w = true -> (run (main w)).2 = Exit 0).
  { intros H. rewrite (run_main_normal _ H). reflexivity. }
  split; [split |]; [| exact H1 | split; [| split]].
  - intros H. destruct (run_every w) as [(Ho & _) | [(_ & Hr & Hc & _) | (Ho & _)]];
      [congruence | auto | congruence].
  - intros code H.
    destruct (run_every w) as [(Ho & _) | [(Ho & _) | (Ho & _)]];
      rewrite Ho in H; [left | right | discriminate]; congruence.
  - intros H. split.
    + destruct (normal source_constants w) eqn:Hn; [| reflexivity].
      rewrite (H0 eq_refl) in H. discriminate.
    + intros Hc. rewrite (H1 Hc) in H. discriminate.
  - intros [Hn Hc].
    destruct (run_every w) as [(_ & Hn' & _) | [(_ & Hr & Hc' & _) | (Ho & _)]];
      [congruence | tauto | exact Ho].
Qed.

Lemma stages_app l1 l2 : stages (l1 ++ l2) = stages l1 ++ stages l2.
Proof. unfold stages. apply omap_app. Qed.

(** X6. In every run, also one that is aborted or runs into undefined
    behaviour, the stages entered are an initial segment of the one
    sequence of the source: no stage is skipped, repeated or entered out
    of order. *)
Theorem stages_in_order_in_every_run (w : world) :
  stages (calls (run (main w))) `prefix_of` source_stages.
Proof.
  destruct (run_every w)
    as [(_ & _ & Hc) | [(_ & _ & _ & Hc) | (_ & _ & [rest Hp] & _)]].
  - rewrite Hc. exists []. reflexivity.
  - rewrite Hc. exists source_stages. reflexivity.
  - exists (stages rest ++ replicate 11 Released).
    rewrite app_assoc, <- stages_app, <- Hp. reflexivity.
Qed.

(** X7. Every run starts with the two allocations of the shape arrays
    followed by [arl_initialize]: in every run [arl_initialize] is the
    first call into the library, and it is made exactly once. *)
Theorem initialize_first_in_every_run (w : world) :
  (exists rest, calls (run (main w)) =
     [Ev.malloc 16 (w_shape w); Ev.malloc 16 (w_shape1 w); Ev.arl_initialize] ++ rest) /\
  head (library_calls (calls (run (main w)))) = Some Ev.arl_initialize /\
  length (filter (fun e => is_initialize e = true) (calls (run (main w)))) = 1%nat.
Proof.
  assert (Hf : exists rest, calls (run (main w)) = first_calls w ++ rest /\
                 length (filter (fun e => is_initialize e = true) rest) = 0%nat).
  { destruct (run_every w)
      as [(_ & _ & Hc) | [(_ & _ & _ & Hc) | (_ & [r1 H1] & [r2 H2] & _)]].
    - rewrite Hc. eexists. split; reflexivity.
    - rewrite Hc. eexists. split; reflexivity.
    - exists r1. split; [exact H1 |].
      assert (E : length (filter (fun e => is_initialize e = true)
                            (setup_calls w ++ pipeline_calls w)) = 1%nat) by reflexivity.
      rewrite H2, H1, !filter_app, !length_app in E.
      change (length (filter (fun e => is_initialize e = true) (first_calls w)))
        with 1%nat in E.
      lia. }
  destruct Hf as (rest & Hc & Hn). rewrite Hc.
  split; [exists rest; reflexivity |]. split; [reflexivity |].
  rewrite filter_app, length_app, Hn. reflexivity.
Qed.

Lemma releases_app l1 l2 : releases (l1 ++ l2) = releases l1 ++ releases l2.
Proof. unfold releases. apply omap_app. Qed.

(** X8. Unless [main] returns 0 it gives back none of the buffers it
    allocated: no [destroy_image], [destroy_vis] or [destroy_gt] is
    called, and the only calls of [free] are those of the default arrays
    of the configuration and the [free(NULL)] of the early return. *)
Theorem failed_run_releases_nothing (w : world) :
  (run (main w)).2 <> Exit 0 ->
  times_entered Released (calls (run (main w))) = 0%nat /\
  releases (calls (run (main w))) `prefix_of` default_releases w ++ [(Scratch, NULL)].
Proof.
  intros H.
  destruct (run_every w)
    as [(Ho & _) | [(_ & _ & _ & Hc) | (_ & _ & [rest Hp] & _)]].
  - contradiction.
  - rewrite Hc. split; [reflexivity |]. exists []. reflexivity.
  - assert (Hs : stages (calls (run (main w))) ++ stages rest =
                 stages (setup_calls w ++ pipeline_calls w))
      by (rewrite <- stages_app, <- Hp; reflexivity).
    assert (Hr : releases (calls (run (main w))) ++ releases rest =
                 default_releases w)
      by (rewrite <- releases_app, <- Hp; reflexivity).
    split.
    + unfold times_entered.
      assert (E : length (filter (fun x => stage_eqb Released x = true)
                            (stages (setup_calls w ++ pipeline_calls w))) = 0%nat)
        by reflexivity.
      rewrite <- Hs, filter_app, length_app in E. lia.
    + exists (releases rest ++ [(Scratch, NULL)]). rewrite app_assoc, Hr. reflexivity.
Qed.

Lemma failed_run_releases_nothing_witness :
  times_entered Released (calls (run (main (with_shape1 NULL demo_world)))) = 0%nat /\
  releases (calls (run (main (with_shape1 NULL demo_world))))
    `prefix_of` default_releases (with_shape1 NULL demo_world) ++ [(Scratch, NULL)].
Proof.
  apply (failed_run_releases_nothing (with_shape1 NULL demo_world)).
  vm_compute. discriminate.
Defined.

(** X9. When the [int] products of lines 130 and 141 do not
    overflow, no stage of the pipeline is entered in a run in which the
    allocation of the configuration, of one of its three arrays or of the
    conversion-index array failed. *)
Theorem no_stage_without_setup (w : world) :
  sizes_representable source_constants w = true ->
  w_lowconfig w = NULL \/ w_freqs w = NULL \/ w_channel_bandwidth w = NULL \/
  w_times w = NULL \/ w_cindex_predict w = NULL ->
  stages (calls (run (main w))) = [].
Proof.
  intros Hsz H.
  assert (Hno : ~ (reaches_cindex source_constants w = true /\
                   (w_cindex_predict w =? NULL) = false)).
  { unfold reaches_cindex. rewrite !andb_true_iff, !negb_true_iff, !Z.eqb_neq.
    tauto. }
  destruct (run_every w)
    as [(_ & Hn & _) | [(_ & _ & _ & Hc) | (_ & _ & _ & [Hs | Hr])]].
  - destruct (Hno (normal_reaches _ _ Hn)).
  - rewrite Hc. reflexivity.
  - exact Hs.
  - destruct (Hno Hr).
Qed.

Lemma no_stage_without_setup_witness :
  stages (calls (run (main (with_cindex_predict NULL demo_world)))) = [].
Proof.
  apply (no_stage_without_setup (with_cindex_predict NULL demo_world)).
  - vm_compute. reflexivity.
  - right; right; right; right. reflexivity.
Defined.

(** *** The size asked for the conversion-index array *)

(** X10. The byte count of the conversion-index array goes through an
    [int]: on a run on which all goes well, the size passed to [malloc] at
    line 143 is the [8 * ntimes * nant * nant * nfreqs] bytes the array
    needs exactly when there are at most 2209 antennas; with more, the
    count does not fit and another size is asked for. *)
Theorem cindex_request_size (w : world) :
  normal source_constants w = true ->
  In (Ev.malloc (CInt.to_size_t (cindex_nbytes w)) (w_cindex_predict w))
     (calls (run (main w))) /\
  (CInt.to_size_t (cindex_nbytes w) = 8 * (11 * w_nant w * w_nant w * 5) <->
   -2209 <= w_nant w <= 2209).
Proof.
  intros H. split.
  - rewrite (calls_main_normal _ H). unfold normal_calls. apply in_or_app. left.
    unfold setup_calls. in_list.
  - unfold normal, sizes_representable in H.
    apply andb_true_iff in H as [_ H].
    apply andb_true_iff in H as [_ H].
    unfold CInt.in_range, CInt.INT_MIN, CInt.INT_MAX, source_constants in H.
    cbn [k_nfreqs k_ntimes] in H.
    apply andb_true_iff in H as [_ H]. apply Z.leb_le in H.
    unfold cindex_nbytes, CInt.to_size_t, CInt.wrap, CInt.size_mul, CInt.sizeof_long_long.
    set (p := 11 * w_nant w * w_nant w * 5) in *.
    assert (Hp : 0 <= p) by (unfold p; nia).
    assert (Hp2 : p <= 2147483647) by lia.
    rewrite (Z.mod_small p) by lia.
    rewrite (Z.mod_small (p * 8)) by lia.
    assert (Hq : p * 8 <= 2147483647 <-> -2209 <= w_nant w <= 2209) by (unfold p; nia).
    rewrite <- Hq.
    destruct (Z_le_gt_dec (p * 8) 2147483647) as [Hle | Hgt].
    + rewrite (Z.mod_small (p * 8 + 2 ^ 31)) by lia.
      rewrite Z.mod_small by lia. lia.
    + split; [| lia]. intros E. exfalso.
      pose proof (Z.mod_pos_bound (p * 8 + 2 ^ 31) (2 ^ 32) ltac:(lia)) as Hb.
      set (v := (p * 8 + 2 ^ 31) mod 2 ^ 32) in *.
      destruct (Z_lt_ge_dec (v - 2 ^ 31) 0) as [Hneg | Hpos].
      * assert (Hm : (v - 2 ^ 31) mod 2 ^ 64 = v - 2 ^ 31 + 2 ^ 64).
        { symmetry. apply (Z.mod_unique _ _ (-1)); lia. }
        lia.
      * rewrite Z.mod_small in E by lia. lia.
Qed.

Lemma cindex_request_size_witness :
  In (Ev.malloc (CInt.to_size_t (cindex_nbytes demo_world)) (w_cindex_predict demo_world))
     (calls (run (main demo_world))) /\
  (CInt.to_size_t (cindex_nbytes demo_world) =
     8 * (11 * w_nant demo_world * w_nant demo_world * 5) <->
   -2209 <= w_nant demo_world <= 2209).
Proof. apply (cindex_request_size demo_world). vm_compute. reflexivity. Defined.

(** ** The verification helper: what a result means *)

Lemma compare_bytes_zero m p q n : forall i,
  compare_bytes m p q i n = Some 0 ->
  forall k, i <= k < i + Z.of_nat n ->
    exists z, byte_at m !! (p + k) = Some z /\ byte_at m !! (q + k) = Some z.
Proof.
  induction n as [|n IH]; intros i H k Hk; [lia |].
  cbn [compare_bytes] in H.
  destruct (byte_at m !! (p + i)) as [x|] eqn:Hx; [| discriminate].
  destruct (byte_at m !! (q + i)) as [y|] eqn:Hy; [| discriminate].
  cbn in H. destruct (Z.eqb_spec x y) as [-> | Hne]; cbn in H; [| discriminate].
  destruct (Z.eq_dec k i) as [-> | Hki].
  - exists y. split; assumption.
  - apply (IH (i + 1)); [exact H | lia].
Qed.

Lemma compare_bytes_range m p q n : forall i r,
  compare_bytes m p q i n = Some r -> r = 0 \/ r = 4.
Proof.
  induction n as [|n IH]; intros i r H; cbn [compare_bytes] in H.
  - left. congruence.
  - destruct (byte_at m !! (p + i)) as [x|]; [| discriminate].
    destruct (byte_at m !! (q + i)) as [y|]; [| discriminate].
    cbn in H. destruct (negb (x =? y)); [right; congruence |].
    exact (IH _ _ H).
Qed.

(** X11. For two live handles and a size that fits an [int], a
    result of 0 is never given for less than a deep copy: the handles are
    distinct, [nvis] and [npol] agree, the data pointers differ, and all
    of the first [80 + 32*npol*nvis] bytes of both buffers could be read
    and are pairwise equal. *)
Theorem verify_arl_copy_zero_sound (m : memory) (vt vtmp : ptr) (a b : ARLVis) :
  vis_at m !! vt = Some a ->
  vis_at m !! vtmp = Some b ->
  size_representable a = true ->
  verify_arl_copy m vt vtmp = Some 0 ->
  vt <> vtmp /\ nvis a = nvis b /\ npol a = npol b /\ data a <> data b /\
  forall i, 0 <= i < payload_extent a ->
    exists z, byte_at m !! (data a + i) = Some z /\
              byte_at m !! (data b + i) = Some z.
Proof.
  unfold verify_arl_copy. intros Ha Hb Hsz H.
  destruct (Z.eqb_spec vt vtmp) as [_ | Hne]; [discriminate |].
  split; [exact Hne |].
  rewrite Ha, Hb in H. cbn in H.
  destruct (Z.eqb_spec (nvis a) (nvis b)) as [Hv | _]; [| discriminate].
  destruct (Z.eqb_spec (npol a) (npol b)) as [Hp | _]; [| discriminate].
  cbn in H.
  destruct (Z.eqb_spec (data a) (data b)) as [_ | Hd]; [discriminate |].
  rewrite (ARLVisDataSize_representable _ Hsz) in H. cbn in H.
  repeat (split; [assumption |]).
  intros i Hi. apply (compare_bytes_zero _ _ _ _ _ H). lia.
Qed.

Lemma verify_arl_copy_zero_sound_witness :
  100 <> 200 /\ nvis demo_vt = nvis demo_vtmp /\ npol demo_vt = npol demo_vtmp /\
  data demo_vt <> data demo_vtmp /\
  forall i, 0 <= i < payload_extent demo_vt ->
    exists z, byte_at alike_memory !! (data demo_vt + i) = Some z /\
              byte_at alike_memory !! (data demo_vtmp + i) = Some z.
Proof.
  apply (verify_arl_copy_zero_sound alike_memory 100 200 demo_vt demo_vtmp);
    vm_compute; reflexivity.
Defined.

(** X12. Whatever the memory and the handles, a result is one of 0, 1,
    2, 3 and 4. *)
Theorem verify_arl_copy_result_range (m : memory) (vt vtmp : ptr) (r : Z) :
  verify_arl_copy m vt vtmp = Some r -> 0 <= r <= 4.
Proof.
  unfold verify_arl_copy. intros H.
  destruct (vt =? vtmp); [injection H as <-; lia |].
  destruct (vis_at m !! vt) as [a|]; [| discriminate].
  destruct (vis_at m !! vtmp) as [b|]; [| discriminate].
  cbn in H.
  destruct (negb _); [injection H as <-; lia |].
  destruct (data a =? data b); [injection H as <-; lia |].
  destruct (ARLVisDataSize a) as [s|]; [| discriminate]. cbn in H.
  destruct (compare_bytes_range _ _ _ _ _ _ H) as [-> | ->]; lia.
Qed.

Lemma verify_arl_copy_result_range_witness : 0 <= 4 <= 4.
Proof. apply (verify_arl_copy_result_range demo_memory 100 200 4). vm_compute. reflexivity. Defined.

(** ** What the driver takes from the default configuration *)

Lemma normal_calls_defaults w d :
  conf_npol d = conf_npol (w_defaults w) ->
  addr (freqs d) = addr (freqs (w_defaults w)) ->
  addr (channel_bandwidth d) = addr (channel_bandwidth (w_defaults w)) ->
  addr (times d) = addr (times (w_defaults w)) ->
  setup_calls (with_defaults d w) = setup_calls w /\
  normal_calls (with_defaults d w) = normal_calls w /\
  normal_conf (with_defaults d w) = normal_conf w.
Proof.
  intros Hn Hf Hc Ht.
  unfold normal_calls, normal_conf, setup_calls, with_defaults.
  cbn [w_shape w_shape1 w_lowconfig w_defaults w_nant w_nbases w_freqs
       w_channel_bandwidth w_times w_vt w_vt_predictfunction w_vt_gt w_vtpredicted
       w_cindex_predict w_nrec].
  rewrite Hn, Hf, Hc, Ht. repeat split.
Qed.

(** X13. Every default the driver overwrites is overwritten before it
    is used: on a run that does not end in undefined behaviour, the calls
    and the result are the same for any other contents of the object
    [allocate_arlconf_default] returns, as long as [npol] and the
    addresses of the three default arrays are the same; when [main]
    returns 0, so is the configuration it leaves. *)
Theorem defaults_are_overwritten (w : world) (d : ARLConf) :
  conf_npol d = conf_npol (w_defaults w) ->
  addr (freqs d) = addr (freqs (w_defaults w)) ->
  addr (channel_bandwidth d) = addr (channel_bandwidth (w_defaults w)) ->
  addr (times d) = addr (times (w_defaults w)) ->
  (run (main w)).2 <> Fault ->
  (run (main (with_defaults d w))).2 = (run (main w)).2 /\
  calls (run (main (with_defaults d w))) = calls (run (main w)) /\
  ((run (main w)).2 = Exit 0 ->
   conf (run (main (with_defaults d w))).1 = conf (run (main w)).1).
Proof.
  intros Hn Hf Hc Ht Hok.
  destruct (normal_calls_defaults w d Hn Hf Hc Ht) as (Es & Ec & Ek).
  destruct (run_every w) as [(Ho & Hnorm & Hcalls) | [(Ho & Hr & Hnull & Hcalls) | (Ho & _)]].
  - assert (Hnorm' : normal source_constants (with_defaults d w) = true) by exact Hnorm.
    rewrite (run_main_normal _ Hnorm'), (run_main_normal _ Hnorm).
    unfold calls, normal_state. cbn [fst snd trace conf].
    rewrite Ec, Ek. repeat split.
  - assert (Hr' : reaches_cindex source_constants (with_defaults d w) = true) by exact Hr.
    assert (Hnull' : w_cindex_predict (with_defaults d w) = NULL) by exact Hnull.
    destruct (main_cindex_failure _ Hr' Hnull') as (s' & Hs' & Ht').
    destruct (main_cindex_failure _ Hr Hnull) as (s & Hs & Ht0).
    unfold run, calls. rewrite Hs', Hs. cbn [fst snd]. rewrite Ht', Ht0, Es.
    repeat split. discriminate.
  - contradiction.
Qed.

Lemma defaults_are_overwritten_witness :
  (run (main (with_defaults other_defaults demo_world))).2 = (run (main demo_world)).2 /\
  calls (run (main (with_defaults other_defaults demo_world))) = calls (run (main demo_world)) /\
  ((run (main demo_world)).2 = Exit 0 ->
   conf (run (main (with_defaults other_defaults demo_world))).1 =
   conf (run (main demo_world)).1).
Proof.
  apply (defaults_are_overwritten demo_world other_defaults);
    try reflexivity.
  vm_compute. discriminate.
Defined.

(** ** The visibility and gain buffers *)

(** X14. On a run on which all goes well the driver allocates five
    visibility and gain buffers: three block visibilities of the same
    dimensions [nant, 5, npol, 11], one visibility of
    [nbases * 5 * 11] rows, and, right after
    [arl_create_blockvisibility], the gain table with the [nrec] that call
    left in the configuration; [npol] is the one of the default
    configuration. *)
Theorem buffer_dimensions (w : world) :
  normal source_constants w = true ->
  filter (fun e => is_buffer_allocation e = true) (calls (run (main w))) =
    [ Ev.allocate_blockvis_data (w_nant w) 5 (conf_npol (w_defaults w)) 11 (w_vt w);
      Ev.allocate_blockvis_data (w_nant w) 5 (conf_npol (w_defaults w)) 11
        (w_vt_predictfunction w);
      Ev.allocate_blockvis_data (w_nant w) 5 (conf_npol (w_defaults w)) 11 (w_vt_gt w);
      Ev.allocate_vis_data (conf_npol (w_defaults w)) (w_nbases w * 5 * 11)
        (w_vtpredicted w);
      Ev.allocate_gt_data (w_nant w) 5 (w_nrec w) 11 (w_gt w) ] /\
  head (after (enters VisibilityCreated) (calls (run (main w)))) =
    Some (Ev.allocate_gt_data (w_nant w) 5 (w_nrec w) 11 (w_gt w)).
Proof.
  intros H. rewrite (calls_main_normal _ H). split; reflexivity.
Qed.

Lemma buffer_dimensions_witness :
  filter (fun e => is_buffer_allocation e = true) (calls (run (main demo_world))) =
    [ Ev.allocate_blockvis_data (w_nant demo_world) 5
        (conf_npol (w_defaults demo_world)) 11 (w_vt demo_world);
      Ev.allocate_blockvis_data (w_nant demo_world) 5
        (conf_npol (w_defaults demo_world)) 11 (w_vt_predictfunction demo_world);
      Ev.allocate_blockvis_data (w_nant demo_world) 5
        (conf_npol (w_defaults demo_world)) 11 (w_vt_gt demo_world);
      Ev.allocate_vis_data (conf_npol (w_defaults demo_world))
        (w_nbases demo_world * 5 * 11) (w_vtpredicted demo_world);
      Ev.allocate_gt_data (w_nant demo_world) 5 (w_nrec demo_world) 11
        (w_gt demo_world) ] /\
  head (after (enters VisibilityCreated) (calls (run (main demo_world)))) =
    Some (Ev.allocate_gt_data (w_nant demo_world) 5 (w_nrec demo_world) 11
            (w_gt demo_world)).
Proof. apply (buffer_dimensions demo_world). vm_compute. reflexivity. Defined.
